(** * E-commerce data pipeline: event generator and batch loader

    A shallow embedding of [src/event_generator.py] and [src/loader.py].

    Python values that travel through [json.dump] / [json.load] are the
    trees of [pyval]; the interpreter's exceptions are the constructors of
    [exn]; everything the two scripts do to the outside (the file system,
    the MySQL server reached through pymysql, the terminal) is a field of
    [world], threaded through a state-and-exception monad [M]. *)

From Stdlib Require Import List String Ascii Bool Arith ZArith Lia PrimFloat.
From Stdlib Require Import Permutation.
Import ListNotations.
Local Open Scope string_scope.
Local Open Scope list_scope.
Local Open Scope nat_scope.
#[local] Set Warnings "-register-all".

Infix "^" := String.append (at level 30, right associativity) : string_scope.

(** ** Python values *)

(** What [json.load] can return, which is also what the generator's
    dictionaries are made of.  A [dict] is kept as the list of its items in
    insertion order; keys are unique in a dict built by Python, and lookup
    takes the first match. *)
Inductive pyval : Type :=
| PNone
| PBool (b : bool)
| PInt (z : Z)
| PFloat (f : float)
| PStr (s : string)
| PList (l : list pyval)
| PDict (items : list (string * pyval)).

(** The exceptions the two scripts can meet.  All of them derive from
    Python's [Exception], so an [except Exception] clause catches each. *)
Inductive exn : Type :=
| KeyError (key : string)
| TypeError (what : string)
| AttributeError (what : string)
| ValueError (what : string)
| JSONDecodeError (path : string)
| FileNotFoundError (path : string)
| NotADirectoryError (path : string)
| OperationalError (what : string)
| InterfaceError (what : string)
| DatabaseError (what : string).

Inductive result (A : Type) : Type :=
| Ok (a : A)
| Raise (e : exn).
Arguments Ok {A} a.
Arguments Raise {A} e.

Definition is_raise {A} (r : result A) : bool :=
  match r with Ok _ => false | Raise _ => true end.

(** *** Dictionaries *)

Fixpoint assoc {V : Type} (k : string) (items : list (string * V)) : option V :=
  match items with
  | [] => None
  | (k', v) :: rest => if String.eqb k k' then Some v else assoc k rest
  end.

Definition keys {V : Type} (items : list (string * V)) : list string :=
  map fst items.

Definition type_name (v : pyval) : string :=
  match v with
  | PNone => "NoneType"
  | PBool _ => "bool"
  | PInt _ => "int"
  | PFloat _ => "float"
  | PStr _ => "str"
  | PList _ => "list"
  | PDict _ => "dict"
  end.

(** [v[k]] for a string subscript [k]. *)
Definition py_getitem (v : pyval) (k : string) : result pyval :=
  match v with
  | PDict items =>
      match assoc k items with
      | Some x => Ok x
      | None => Raise (KeyError k)
      end
  | _ => Raise (TypeError (type_name v))
  end.

(** [v.get(k)]: the value under [k], [None] when the key is absent. *)
Definition py_get (v : pyval) (k : string) : result pyval :=
  match v with
  | PDict items =>
      match assoc k items with
      | Some x => Ok x
      | None => Ok PNone
      end
  | _ => Raise (AttributeError (type_name v))
  end.

(** [v.get(k, d)]. *)
Definition py_get_default (v : pyval) (k : string) (d : pyval) : result pyval :=
  match v with
  | PDict items =>
      match assoc k items with
      | Some x => Ok x
      | None => Ok d
      end
  | _ => Raise (AttributeError (type_name v))
  end.

Fixpoint chars (s : string) : list pyval :=
  match s with
  | EmptyString => []
  | String c rest => PStr (String c EmptyString) :: chars rest
  end.

(** The items a [for] loop (or [enumerate]) draws from [v]: the elements of
    a list, the keys of a dict, the characters of a string. *)
Definition py_iter (v : pyval) : result (list pyval) :=
  match v with
  | PList l => Ok l
  | PDict items => Ok (map PStr (keys items))
  | PStr s => Ok (chars s)
  | _ => Raise (TypeError (type_name v))
  end.

(** [len(v)]. *)
Definition py_len (v : pyval) : result nat :=
  match v with
  | PList l => Ok (List.length l)
  | PDict items => Ok (List.length items)
  | PStr s => Ok (String.length s)
  | _ => Raise (TypeError (type_name v))
  end.

(** ** Date-times *)

(** A naive [datetime.datetime], as [datetime.now()] returns it. *)
Record datetime : Type := mkDatetime {
  year : N;
  month : N;
  day : N;
  hour : N;
  minute : N;
  second : N;
  microsecond : N
}.

Definition is_leap (y : N) : bool :=
  (((y mod 4 =? 0) && negb (y mod 100 =? 0)) || (y mod 400 =? 0))%N.

Definition days_in_month (y m : N) : N :=
  (if m =? 2 then (if is_leap y then 29 else 28)
   else if (m =? 4) || (m =? 6) || (m =? 9) || (m =? 11) then 30
   else 31)%N.

(** The range checks of the [datetime] constructor. *)
Definition valid_datetime (d : datetime) : bool :=
  ((1 <=? year d) && (year d <=? 9999) &&
   (1 <=? month d) && (month d <=? 12) &&
   (1 <=? day d) && (day d <=? days_in_month (year d) (month d)) &&
   (hour d <? 24) && (minute d <? 60) && (second d <? 60) &&
   (microsecond d <? 1000000))%N.

Definition digit (n : N) : ascii := ascii_of_N (48 + n mod 10).

(** [n] written in decimal on [w] digits, zero padded (the low [w] digits
    when [n] has more). *)
Fixpoint pad (w : nat) (n : N) : string :=
  match w with
  | O => ""
  | S w' => pad w' (n / 10)%N ^ String (digit n) ""
  end.

(** [d.isoformat()]: [YYYY-MM-DDTHH:MM:SS], followed by [.ffffff] when the
    microsecond field is not zero. *)
Definition isoformat (d : datetime) : string :=
  pad 4 (year d) ^ "-" ^ pad 2 (month d) ^ "-" ^ pad 2 (day d) ^ "T" ^
  pad 2 (hour d) ^ ":" ^ pad 2 (minute d) ^ ":" ^ pad 2 (second d) ^
  (if N.eqb (microsecond d) 0 then "" else "." ^ pad 6 (microsecond d)).


Definition digit_val (c : ascii) : option N :=
  let n := N_of_ascii c in
  if ((48 <=? n) && (n <=? 57))%N then Some (n - 48)%N else None.

(** The number a string of decimal digits denotes; [None] when some
    character is not a digit. *)
Fixpoint digits_from (acc : N) (s : string) : option N :=
  match s with
  | EmptyString => Some acc
  | String c rest =>
      match digit_val c with
      | Some v => digits_from (10 * acc + v)%N rest
      | None => None
      end
  end.

Definition number (s : string) : option N :=
  match s with
  | EmptyString => None
  | _ => digits_from 0%N s
  end.

Definition is_char (c : ascii) (o : option ascii) : bool :=
  match o with
  | Some c' => Ascii.eqb c c'
  | None => false
  end.

(** A reader for the texts [isoformat] writes:
    [YYYY-MM-DDTHH:MM:SS] with an optional [.ffffff].  It is one function
    that meets the contract assumed of [datetime.fromisoformat] below, and
    serves as the concrete instance in the examples. *)
Definition parse_iso (s : string) : option datetime :=
  let n := String.length s in
  if negb ((n =? 19) || (n =? 26)) then None
  else if negb (is_char "-" (String.get 4 s) && is_char "-" (String.get 7 s) &&
                is_char "T" (String.get 10 s) && is_char ":" (String.get 13 s) &&
                is_char ":" (String.get 16 s)) then None
  else if (n =? 26) && negb (is_char "." (String.get 19 s)) then None
  else
    match number (substring 0 4 s), number (substring 5 2 s),
          number (substring 8 2 s), number (substring 11 2 s),
          number (substring 14 2 s), number (substring 17 2 s),
          (if n =? 26 then number (substring 20 6 s) else Some 0%N) with
    | Some y, Some mo, Some d, Some h, Some mi, Some sec, Some us =>
        let dt := mkDatetime y mo d h mi sec us in
        if valid_datetime dt then Some dt else None
    | _, _, _, _, _, _, _ => None
    end.

(** ** Strings and paths *)

Fixpoint str_rev_onto (s acc : string) : string :=
  match s with
  | EmptyString => acc
  | String c rest => str_rev_onto rest (String c acc)
  end.

Definition str_rev (s : string) : string := str_rev_onto s "".

(** [s.endswith(suffix)] and [s.startswith(p)]. *)
Definition str_endswith (s suffix : string) : bool :=
  String.prefix (str_rev suffix) (str_rev s).

Definition str_startswith (s p : string) : bool := String.prefix p s.

(** [os.path.join(a, b)] on a POSIX system. *)
Definition path_join (a b : string) : string :=
  if str_startswith b "/" then b
  else if String.eqb a "" || str_endswith a "/" then a ^ b
  else a ^ "/" ^ b.

(** ** The staging row *)

(** The tuple [values] that [insert_event] binds to the 22 placeholders of
    its [INSERT INTO staging_events] statement, column by column. *)
Record row : Type := mkRow {
  event_id : pyval;
  event_type : pyval;
  user_id : pyval;
  session_id : pyval;
  timestamp : datetime;
  page_url : pyval;
  device : pyval;
  browser : pyval;
  product_id : pyval;
  product_name : pyval;
  price : pyval;
  quantity : pyval;
  order_id : pyval;
  total_amount : pyval;
  items_count : pyval;
  payment_method : pyval;
  shipping_city : pyval;
  shipping_state : pyval;
  shipping_zip : pyval;
  rating : pyval;
  review_text : pyval;
  verified_purchase : pyval
}.

(** ** The world outside the interpreter *)

(** What a file holds: the text [json.dump] writes for a value, which
    [json.load] reads back as that value, or text [json.load] rejects. *)
Inductive file_content : Type :=
| JsonText (v : pyval)
| BadText (raw : string).

(** A pymysql connection: whether it is still open, and the rows inserted
    through it since its last commit. *)
Record conn : Type := mkConn {
  c_open : bool;
  c_pending : list row
}.

(** The calls that leave the interpreter, in the order they are made.
    A connection is named by its handle, its position in [w_conns]. *)
Inductive op : Type :=
| OpConnect (h : nat)
| OpConnectFailed
| OpListdir (dir : string)
| OpRead (path : string)
| OpWrite (path : string)
| OpExecute (h : nat) (r : row) (accepted : bool)
| OpCommit (h : nat)
| OpClose (h : nat).

(** The lines the scripts print, one constructor per [print] call. *)
Inductive msg : Type :=
| MsgText (s : string)
| MsgConnected
| MsgConnectError (e : exn)
| MsgLoading (path : string)
| MsgFound (n : nat)
| MsgProgress (idx n : nat)
| MsgInsertError (idx : nat) (e : exn)
| MsgComplete (success : nat)
| MsgWarning (errors : nat)
| MsgNoFiles (dir : string)
| MsgFoundFiles (n : nat)
| MsgTotalLoaded (n : nat)
| MsgTotalErrors (n : nat)
| MsgFilesProcessed (n : nat)
| MsgSaved (n : nat) (path : string).

Record world : Type := mkWorld {
  w_listing : list (string * list string);
    (** the directories there are, each under its path, with what
        [os.listdir] answers for it, in the order the operating system
        gives the entries *)
  w_files : list (string * file_content);
    (** the readable files, by path *)
  w_clock : datetime;
    (** what [datetime.now()] reads *)
  w_connect_error : option exn;
    (** the exception [pymysql.connect] raises, if the server cannot be
        reached with the configured parameters *)
  w_table : list row;
    (** the committed rows of [staging_events] *)
  w_conns : list conn;
  w_out : list msg;
  w_trace : list op
}.

Definition set_table (t : list row) (w : world) : world :=
  mkWorld (w_listing w) (w_files w) (w_clock w) (w_connect_error w) t
          (w_conns w) (w_out w) (w_trace w).
Definition set_conns (c : list conn) (w : world) : world :=
  mkWorld (w_listing w) (w_files w) (w_clock w) (w_connect_error w) (w_table w)
          c (w_out w) (w_trace w).
Definition set_out (o : list msg) (w : world) : world :=
  mkWorld (w_listing w) (w_files w) (w_clock w) (w_connect_error w) (w_table w)
          (w_conns w) o (w_trace w).
Definition set_trace (t : list op) (w : world) : world :=
  mkWorld (w_listing w) (w_files w) (w_clock w) (w_connect_error w) (w_table w)
          (w_conns w) (w_out w) t.

(** ** The monad of a running script *)

(** A computation reads and changes the world and either returns a value or
    raises; what it did to the world before raising stays done. *)
Definition M (A : Type) : Type := world -> result A * world.

Definition ret {A} (a : A) : M A := fun w => (Ok a, w).

Definition raise {A} (e : exn) : M A := fun w => (Raise e, w).

Definition bind {A B} (m : M A) (k : A -> M B) : M B :=
  fun w =>
    match m w with
    | (Ok a, w') => k a w'
    | (Raise e, w') => (Raise e, w')
    end.

(** [try: body / except Exception as e: handler(e)]. *)
Definition try_except {A} (body : M A) (handler : exn -> M A) : M A :=
  fun w =>
    match body w with
    | (Ok a, w') => (Ok a, w')
    | (Raise e, w') => handler e w'
    end.

Definition lift {A} (r : result A) : M A := fun w => (r, w).

Declare Scope monad_scope.
Delimit Scope monad_scope with monad.
Notation "x <- m ;; k" := (bind m (fun x => k))
  (at level 61, m at next level, right associativity) : monad_scope.
Notation "m ;; k" := (bind m (fun _ => k))
  (at level 61, right associativity) : monad_scope.
Local Open Scope monad_scope.

Definition print (m : msg) : M unit :=
  fun w => (Ok tt, set_out (w_out w ++ [m]) w).

Definition log (o : op) : M unit :=
  fun w => (Ok tt, set_trace (w_trace w ++ [o]) w).

(** *** The file system *)

(** [os.listdir(dir)]. *)
Definition os_listdir (dir : string) : M (list string) :=
  log (OpListdir dir) ;;
  fun w =>
    match assoc dir (w_listing w) with
    | Some names => (Ok names, w)
    | None => (Raise (FileNotFoundError dir), w)
    end.

(** [with open(path, 'r') as f: json.load(f)]. *)
Definition json_load_path (path : string) : M pyval :=
  log (OpRead path) ;;
  fun w =>
    match assoc path (w_files w) with
    | None => (Raise (FileNotFoundError path), w)
    | Some (BadText _) => (Raise (JSONDecodeError path), w)
    | Some (JsonText v) => (Ok v, w)
    end.










(** *** The database driver *)

Fixpoint update_nth {A : Type} (n : nat) (f : A -> A) (l : list A) : list A :=
  match l, n with
  | [], _ => []
  | x :: rest, O => f x :: rest
  | x :: rest, S n' => x :: update_nth n' f rest
  end.

Definition conn_is_open (h : nat) (w : world) : bool :=
  match nth_error (w_conns w) h with
  | Some c => c_open c
  | None => false
  end.

Definition pending_of (h : nat) (w : world) : list row :=
  match nth_error (w_conns w) h with
  | Some c => c_pending c
  | None => []
  end.

(** [pymysql.connect(...)]: a new open connection, or the exception the
    server's absence causes. *)
Definition pymysql_connect : M nat :=
  fun w =>
    match w_connect_error w with
    | Some e => (Raise e, set_trace (w_trace w ++ [OpConnectFailed]) w)
    | None =>
        let h := List.length (w_conns w) in
        (Ok h, set_trace (w_trace w ++ [OpConnect h])
                 (set_conns (w_conns w ++ [mkConn true []]) w))
    end.

(** [connection.commit()]: the rows inserted since the last commit join the
    table. *)
Definition connection_commit (h : nat) : M unit :=
  fun w =>
    if conn_is_open h w then
      (Ok tt, set_trace (w_trace w ++ [OpCommit h])
                (set_table (w_table w ++ pending_of h w)
                   (set_conns (update_nth h (fun c => mkConn true []) (w_conns w)) w)))
    else (Raise (InterfaceError "closed"), w).

(** [connection.close()]: rows not committed are lost. *)
Definition connection_close (h : nat) : M unit :=
  fun w =>
    if conn_is_open h w then
      (Ok tt, set_trace (w_trace w ++ [OpClose h])
                (set_conns (update_nth h (fun c => mkConn false []) (w_conns w)) w))
    else (Raise (InterfaceError "Already closed"), w).

(** ** What the scripts take from their libraries *)

(** [fromisoformat] is [datetime.fromisoformat] on a [str] ([None] where it
    raises [ValueError]); [round2 x] is [round(x, 2)]; [store_check rows r]
    is the server's verdict on inserting [r] when the table, with the
    rows pending on the connection, holds [rows]: [None] when the row is
    accepted, the exception raised otherwise. *)
Class Runtime : Type := mkRuntime {
  fromisoformat : string -> option datetime;
  round2 : float -> float;
  store_check : list row -> row -> option exn
}.

(** ** [event_generator.py] *)

(** The generator draws from Faker, from the [random] module and from the
    clock.  Each function below takes what its run drew as arguments, so
    that every dictionary the script can build is the image of some draws. *)

(** [random.choice(l)], from the index the generator picked. *)
Definition choice (l : list string) (i : nat) : string :=
  nth (i mod List.length l) l "".

(** [random.randint(lo, hi)], from a raw integer. *)
Definition randint (lo hi : Z) (x : Z) : Z := (lo + x mod (hi - lo + 1))%Z.

(** [random.uniform(a, b)], from the unit-interval float [u] that
    [random.random()] returned. *)
Definition uniform (a b u : float) : float := (a + (b - a) * u)%float.

(** [sum(l)] on floats. *)
Definition fsum (l : list float) : float := fold_left PrimFloat.add l 0%float.

Section Generator.
Context {rt : Runtime}.

Definition generate_page_view
  (uuid1 : string) (user : Z) (uuid2 : string) (now : datetime)
  (category : nat) (uri_page : string) (dev brw : nat) : pyval :=
  let categories :=
    ["electronics"; "clothing"; "books"; "home"; "sports"; "toys"] in
  PDict [
    ("event_type", PStr "page_view");
    ("event_id", PStr uuid1);
    ("user_id", PInt (randint 1000 9999 user));
    ("session_id", PStr uuid2);
    ("timestamp", PStr (isoformat now));
    ("page_url", PStr ("/products/" ^ choice categories category ^ "/" ^ uri_page));
    ("device", PStr (choice ["mobile"; "desktop"; "tablet"] dev));
    ("browser", PStr (choice ["Chrome"; "Firefox"; "Safari"; "Edge"] brw))
  ].

Definition generate_add_to_cart
  (uuid1 : string) (user : Z) (uuid2 : string) (now : datetime)
  (product : Z) (catch_phrase : string) (u : float) (qty : Z) : pyval :=
  PDict [
    ("event_type", PStr "add_to_cart");
    ("event_id", PStr uuid1);
    ("user_id", PInt (randint 1000 9999 user));
    ("session_id", PStr uuid2);
    ("timestamp", PStr (isoformat now));
    ("product_id", PInt (randint 100 999 product));
    ("product_name", PStr catch_phrase);
    ("price", PFloat (round2 (uniform 10 500 u)));
    ("quantity", PInt (randint 1 3 qty))
  ].

Definition generate_purchase
  (items : Z) (us : nat -> float) (uuid1 uuid2 : string) (user : Z)
  (now : datetime) (method : nat) (city state zip : string) : pyval :=
  let num_items := randint 1 5 items in
  let item_total :=
    fsum (map (fun i => round2 (uniform 10 200 (us i)))
              (seq 0 (Z.to_nat num_items))) in
  PDict [
    ("event_type", PStr "purchase");
    ("event_id", PStr uuid1);
    ("order_id", PStr uuid2);
    ("user_id", PInt (randint 1000 9999 user));
    ("timestamp", PStr (isoformat now));
    ("total_amount", PFloat (round2 item_total));
    ("items_count", PInt num_items);
    ("payment_method",
      PStr (choice ["credit_card"; "paypal"; "debit_card"; "apple_pay"] method));
    ("shipping_address",
      PDict [("city", PStr city); ("state", PStr state); ("zip", PStr zip)])
  ].

Definition generate_product_review
  (uuid1 : string) (user : Z) (product : Z) (now : datetime)
  (stars : Z) (sentence : string) (verified : bool) : pyval :=
  PDict [
    ("event_type", PStr "product_review");
    ("event_id", PStr uuid1);
    ("user_id", PInt (randint 1000 9999 user));
    ("product_id", PInt (randint 100 999 product));
    ("timestamp", PStr (isoformat now));
    ("rating", PInt (randint 1 5 stars));
    ("review_text", PStr sentence);
    ("verified_purchase", PBool verified)
  ].

(** An event of the generator: the dictionary one of its four functions
    returns, at a clock reading that is a date-time. *)
Inductive generated : pyval -> Prop :=
| gen_page_view uuid1 user uuid2 now category uri_page dev brw :
    valid_datetime now = true ->
    generated
      (generate_page_view uuid1 user uuid2 now category uri_page dev brw)
| gen_add_to_cart uuid1 user uuid2 now product catch_phrase u qty :
    valid_datetime now = true ->
    generated
      (generate_add_to_cart uuid1 user uuid2 now product catch_phrase u qty)
| gen_purchase items us uuid1 uuid2 user now method city state zip :
    valid_datetime now = true ->
    generated
      (generate_purchase items us uuid1 uuid2 user now method city state zip)
| gen_product_review uuid1 user product now stars sentence verified :
    valid_datetime now = true ->
    generated
      (generate_product_review uuid1 user product now stars sentence verified).


End Generator.

(** ** [loader.py] *)

Definition rbind {A B} (r : result A) (k : A -> result B) : result B :=
  match r with
  | Ok a => k a
  | Raise e => Raise e
  end.

Notation "'let*' x := r 'in' k" := (rbind r (fun x => k))
  (at level 10, x name, r at level 100, k at level 200).

Section Loader.
Context {rt : Runtime}.

(** [datetime.fromisoformat(v)]. *)
Definition datetime_fromisoformat (v : pyval) : result datetime :=
  match v with
  | PStr s =>
      match fromisoformat s with
      | Some d => Ok d
      | None => Raise (ValueError s)
      end
  | _ => Raise (TypeError (type_name v))
  end.

(** The part of [insert_event] that precedes [cursor.execute]: the
    timestamp is parsed, the shipping address taken, and the tuple
    [values] built, its components evaluated from left to right. *)
Definition insert_values (event : pyval) : result row :=
  let* ts := py_getitem event "timestamp" in
  let* timestamp := datetime_fromisoformat ts in
  let* shipping := py_get_default event "shipping_address" (PDict []) in
  let* v_event_id := py_get event "event_id" in
  let* v_event_type := py_get event "event_type" in
  let* v_user_id := py_get event "user_id" in
  let* v_session_id := py_get event "session_id" in
  let* v_page_url := py_get event "page_url" in
  let* v_device := py_get event "device" in
  let* v_browser := py_get event "browser" in
  let* v_product_id := py_get event "product_id" in
  let* v_product_name := py_get event "product_name" in
  let* v_price := py_get event "price" in
  let* v_quantity := py_get event "quantity" in
  let* v_order_id := py_get event "order_id" in
  let* v_total_amount := py_get event "total_amount" in
  let* v_items_count := py_get event "items_count" in
  let* v_payment_method := py_get event "payment_method" in
  let* v_city := py_get shipping "city" in
  let* v_state := py_get shipping "state" in
  let* v_zip := py_get shipping "zip" in
  let* v_rating := py_get event "rating" in
  let* v_review_text := py_get event "review_text" in
  let* v_verified_purchase := py_get event "verified_purchase" in
  Ok (mkRow v_event_id v_event_type v_user_id v_session_id timestamp
            v_page_url v_device v_browser
            v_product_id v_product_name v_price v_quantity
            v_order_id v_total_amount v_items_count v_payment_method
            v_city v_state v_zip
            v_rating v_review_text v_verified_purchase).

(** [cursor.execute(sql, values)] on a cursor of connection [h]. *)
Definition cursor_execute (h : nat) (r : row) : M unit :=
  fun w =>
    if conn_is_open h w then
      match store_check (w_table w ++ pending_of h w) r with
      | None =>
          (Ok tt,
           set_trace (w_trace w ++ [OpExecute h r true])
             (set_conns
                (update_nth h (fun c => mkConn true (c_pending c ++ [r]))
                   (w_conns w)) w))
      | Some e => (Raise e, set_trace (w_trace w ++ [OpExecute h r false]) w)
      end
    else (Raise (InterfaceError "closed"), w).

Definition insert_event (cursor : nat) (event : pyval) : M unit :=
  values <- lift (insert_values event) ;;
  cursor_execute cursor values.

(** One turn of the loop of [load_json_file] on the record at position
    [idx]: the [try] block, and the [except Exception] clause that
    takes over when the block raises.  [total] is [len(events)]. *)
Definition load_event (h total idx : nat) (event : pyval)
  (success_count error_count : nat) : M (nat * nat) :=
  try_except
    (insert_event h event ;;
     (if idx mod 50 =? 0 then print (MsgProgress idx total) else ret tt) ;;
     ret (S success_count, error_count))
    (fun e =>
       print (MsgInsertError idx e) ;;
       ret (success_count, S error_count)).

(** The [for idx, event in enumerate(events, 1)] loop, from position
    [idx] on. *)
Fixpoint load_events (h total : nat) (events : list pyval)
  (idx success_count error_count : nat) : M (nat * nat) :=
  match events with
  | [] => ret (success_count, error_count)
  | event :: rest =>
      counts <- load_event h total idx event success_count error_count ;;
      load_events h total rest (S idx) (fst counts) (snd counts)
  end.

Definition load_json_file (filepath : string) (connection : nat)
  : M (nat * nat) :=
  print (MsgLoading filepath) ;;
  events <- json_load_path filepath ;;
  total <- lift (py_len events) ;;
  print (MsgFound total) ;;
  items <- lift (py_iter events) ;;
  counts <- load_events connection total items 1 0 0 ;;
  connection_commit connection ;;
  print (MsgComplete (fst counts)) ;;
  (if 0 <? snd counts then print (MsgWarning (snd counts)) else ret tt) ;;
  ret counts.

Definition get_db_connection : M (option nat) :=
  try_except
    (connection <- pymysql_connect ;;
     print MsgConnected ;;
     ret (Some connection))
    (fun e => print (MsgConnectError e) ;; ret None).

(** The [for json_file in json_files] loop of [load_all_events]. *)
Fixpoint load_files (events_dir : string) (connection : nat)
  (json_files : list string) (total_success total_errors : nat)
  : M (nat * nat) :=
  match json_files with
  | [] => ret (total_success, total_errors)
  | json_file :: rest =>
      let filepath := path_join events_dir json_file in
      counts <- load_json_file filepath connection ;;
      load_files events_dir connection rest
        (total_success + fst counts) (total_errors + snd counts)
  end.

Definition banner : string :=
  "============================================================".

(** [load_all_events] from the point where it holds a connection. *)
Definition load_with_connection (events_dir : string) (connection : nat)
  : M unit :=
  names <- os_listdir events_dir ;;
  let json_files := filter (fun f => str_endswith f ".json") names in
  match json_files with
  | [] =>
      print (MsgNoFiles events_dir) ;;
      connection_close connection ;;
      ret tt
  | _ =>
      print (MsgFoundFiles (List.length json_files)) ;;
      totals <- load_files events_dir connection json_files 0 0 ;;
      connection_close connection ;;
      print (MsgText banner) ;;
      print (MsgText "[SUMMARY]") ;;
      print (MsgTotalLoaded (fst totals)) ;;
      print (MsgTotalErrors (snd totals)) ;;
      print (MsgFilesProcessed (List.length json_files)) ;;
      print (MsgText banner) ;;
      print (MsgText "Next step: Query the data in MySQL Workbench!")
  end.

(** [load_all_events(events_dir)]; every path of the function returns
    [None]. *)
Definition load_all_events (events_dir : string) : M unit :=
  print (MsgText banner) ;;
  print (MsgText "DATA LOADER - JSON to MySQL") ;;
  print (MsgText banner) ;;
  connection <- get_db_connection ;;
  match connection with
  | None => ret tt
  | Some h => load_with_connection events_dir h
  end.

End Loader.

(** ** The [main] of each script *)











Section Mains.
Context {rt : Runtime}.








End Mains.

(** ** The event schema *)

(** The four kinds of event, by the function that generates them. *)
Inductive variant : Type := PageView | AddToCart | Purchase | ProductReview.

Definition variant_name (v : variant) : string :=
  match v with
  | PageView => "page_view"
  | AddToCart => "add_to_cart"
  | Purchase => "purchase"
  | ProductReview => "product_review"
  end.

(** The keys every generated event has, and those each kind adds. *)
Definition common_fields : list string :=
  ["event_type"; "event_id"; "user_id"; "timestamp"].

Definition variant_fields (v : variant) : list string :=
  match v with
  | PageView => ["session_id"; "page_url"; "device"; "browser"]
  | AddToCart =>
      ["session_id"; "product_id"; "product_name"; "price"; "quantity"]
  | Purchase =>
      ["order_id"; "total_amount"; "items_count"; "payment_method";
       "shipping_address"]
  | ProductReview =>
      ["product_id"; "rating"; "review_text"; "verified_purchase"]
  end.

(** The columns of the row that come from fields some kinds lack. *)
Inductive column : Type :=
| CSessionId | CPageUrl | CDevice | CBrowser
| CProductId | CProductName | CPrice | CQuantity
| COrderId | CTotalAmount | CItemsCount | CPaymentMethod
| CShippingCity | CShippingState | CShippingZip
| CRating | CReviewText | CVerifiedPurchase.

(** The key of the event a column is read from. *)
Definition column_field (c : column) : string :=
  match c with
  | CSessionId => "session_id"
  | CPageUrl => "page_url"
  | CDevice => "device"
  | CBrowser => "browser"
  | CProductId => "product_id"
  | CProductName => "product_name"
  | CPrice => "price"
  | CQuantity => "quantity"
  | COrderId => "order_id"
  | CTotalAmount => "total_amount"
  | CItemsCount => "items_count"
  | CPaymentMethod => "payment_method"
  | CShippingCity | CShippingState | CShippingZip => "shipping_address"
  | CRating => "rating"
  | CReviewText => "review_text"
  | CVerifiedPurchase => "verified_purchase"
  end.

Definition column_value (c : column) (r : row) : pyval :=
  match c with
  | CSessionId => session_id r
  | CPageUrl => page_url r
  | CDevice => device r
  | CBrowser => browser r
  | CProductId => product_id r
  | CProductName => product_name r
  | CPrice => price r
  | CQuantity => quantity r
  | COrderId => order_id r
  | CTotalAmount => total_amount r
  | CItemsCount => items_count r
  | CPaymentMethod => payment_method r
  | CShippingCity => shipping_city r
  | CShippingState => shipping_state r
  | CShippingZip => shipping_zip r
  | CRating => rating r
  | CReviewText => review_text r
  | CVerifiedPurchase => verified_purchase r
  end.

Definition mem (k : string) (l : list string) : bool := existsb (String.eqb k) l.

(** The value under [k], [None] when there is none. *)
Definition get_or_none (items : list (string * pyval)) (k : string) : pyval :=
  match assoc k items with
  | Some x => x
  | None => PNone
  end.

(** A record is an event of kind [v] when its [event_type] names [v], its
    keys are among the common fields and those of [v], and, for a
    purchase, its shipping address is an object. *)
Definition conforms (v : variant) (items : list (string * pyval)) : bool :=
  match assoc "event_type" items with
  | Some (PStr name) => String.eqb name (variant_name v)
  | _ => false
  end &&
  forallb (fun k => mem k (common_fields ++ variant_fields v)) (keys items) &&
  match v, assoc "shipping_address" items with
  | Purchase, Some (PDict _) => true
  | Purchase, _ => false
  | _, _ => true
  end.

(** ** Reading a trace *)

(** Whether a call, if it goes through a connection, goes through [h]. *)
Definition on_handle (h : nat) (o : op) : bool :=
  match o with
  | OpConnect k | OpExecute k _ _ | OpCommit k | OpClose k => k =? h
  | _ => true
  end.

Definition is_execute_on (h : nat) (o : op) : bool :=
  match o with
  | OpExecute h' _ _ => h' =? h
  | _ => false
  end.

(** The rows of the statements the server accepted. *)
Fixpoint accepted_rows (t : list op) : list row :=
  match t with
  | [] => []
  | OpExecute _ r true :: rest => r :: accepted_rows rest
  | _ :: rest => accepted_rows rest
  end.

(** The files opened for reading, in order. *)
Fixpoint files_read (t : list op) : list string :=
  match t with
  | [] => []
  | OpRead path :: rest => path :: files_read rest
  | _ :: rest => files_read rest
  end.

Definition is_commit (o : op) : bool :=
  match o with OpCommit _ => true | _ => false end.

Definition is_close (o : op) : bool :=
  match o with OpClose _ => true | _ => false end.

Definition is_connect (o : op) : bool :=
  match o with OpConnect _ | OpConnectFailed => true | _ => false end.

(** The calls that touch the file system. *)
Definition is_file_op (o : op) : bool :=
  match o with OpListdir _ | OpRead _ | OpWrite _ => true | _ => false end.

(** The connection a database call goes through. *)
Definition op_handle (o : op) : option nat :=
  match o with
  | OpConnect h | OpExecute h _ _ | OpCommit h | OpClose h => Some h
  | _ => None
  end.

(** The per-record lines of [load_json_file]. *)
Definition is_record_msg (m : msg) : bool :=
  match m with
  | MsgProgress _ _ | MsgInsertError _ _ => true
  | _ => false
  end.

Definition is_complete (m : msg) : bool :=
  match m with MsgComplete _ => true | _ => false end.

(** The per-file tallies a run printed: the successes of every
    [MsgComplete] line and the failures of every [MsgWarning] line. *)
Fixpoint reported_successes (o : list msg) : nat :=
  match o with
  | [] => 0
  | MsgComplete s :: rest => s + reported_successes rest
  | _ :: rest => reported_successes rest
  end.

Fixpoint reported_failures (o : list msg) : nat :=
  match o with
  | [] => 0
  | MsgWarning f :: rest => f + reported_failures rest
  | _ :: rest => reported_failures rest
  end.

(** ** Describing a run *)

(** What the loader leaves alone while it inserts rows: the file system,
    the clock, the server's reachability, the committed table, and which
    connections are open. *)
Record quiet (w w' : world) : Prop := mkQuiet {
  quiet_listing : w_listing w' = w_listing w;
  quiet_files : w_files w' = w_files w;
  quiet_clock : w_clock w' = w_clock w;
  quiet_connect_error : w_connect_error w' = w_connect_error w;
  quiet_table : w_table w' = w_table w;
  quiet_open : forall k, conn_is_open k w' = conn_is_open k w;
  quiet_conns : List.length (w_conns w') = List.length (w_conns w)
}.

(** What loading a file leaves alone: as [quiet], but for the table, which
    the commit extends. *)
Record steady (w w' : world) : Prop := mkSteady {
  steady_listing : w_listing w' = w_listing w;
  steady_files : w_files w' = w_files w;
  steady_clock : w_clock w' = w_clock w;
  steady_connect_error : w_connect_error w' = w_connect_error w;
  steady_open : forall k, conn_is_open k w' = conn_is_open k w;
  steady_conns : List.length (w_conns w') = List.length (w_conns w)
}.

(** The effect of a stretch of the record loop on the world: statements
    [t] sent on [h], lines [o] printed, accepted rows left pending. *)
Definition loop_effect (h : nat) (w w' : world) (t : list op) (o : list msg)
  : Prop :=
  quiet w w' /\
  w_trace w' = w_trace w ++ t /\
  forallb (is_execute_on h) t = true /\
  w_out w' = w_out w ++ o /\
  forallb is_record_msg o = true /\
  pending_of h w' = pending_of h w ++ accepted_rows t.

(** The error [load_json_file] meets before its loop, if any: the file
    cannot be opened, is not JSON, or holds a value with no length. *)
Definition file_error (path : string) (w : world) : option exn :=
  match assoc path (w_files w) with
  | None => Some (FileNotFoundError path)
  | Some (BadText _) => Some (JSONDecodeError path)
  | Some (JsonText v) =>
      match py_iter v with
      | Ok _ => None
      | Raise x => Some x
      end
  end.

(** The calls [t] of the file loop over the files [paths]. *)
Record files_done (h : nat) (paths : list string) (t : list op)
  : Prop := mkFilesDone {
  done_reads : files_read t = paths;
  done_commits : filter is_commit t = repeat (OpCommit h) (List.length paths);
  done_no_close : filter is_close t = [];
  done_no_connect : filter is_connect t = [];
  done_handle : forallb (on_handle h) t = true
}.

(** The lines [load_all_events] prints before it connects. *)
Definition heading : list msg :=
  [MsgText banner; MsgText "DATA LOADER - JSON to MySQL"; MsgText banner].

(** The world once the connection is made and announced. *)
Definition connected (w : world) : world :=
  let h := List.length (w_conns w) in
  let w1 := set_trace (w_trace w ++ [OpConnect h])
              (set_conns (w_conns w ++ [mkConn true []]) w) in
  set_out (w_out w1 ++ [MsgConnected]) w1.

(** The world in which [load_all_events] goes on once connected. *)
Definition greeted (w : world) : world :=
  connected (set_out (w_out w ++ heading) w).

Section RunFacts.
Context {rt : Runtime}.

(** Whether the row of a record can be built. *)
Definition buildable (event : pyval) : bool :=
  negb (is_raise (insert_values event)).

(** The documented contract of [datetime.fromisoformat]: it inverts
    [datetime.isoformat]. *)
Definition fromisoformat_inverts_isoformat : Prop :=
  forall d, valid_datetime d = true -> fromisoformat (isoformat d) = Some d.

End RunFacts.

(** ** The steps of a run *)

(** The world when the record loop of [load_json_file] starts: the file
    is announced, read and measured. *)
Definition header (path : string) (total : nat) (w : world) : world :=
  let w1 := set_out (w_out w ++ [MsgLoading path]) w in
  let w2 := set_trace (w_trace w1 ++ [OpRead path]) w1 in
  set_out (w_out w2 ++ [MsgFound total]) w2.

(** The world [load_json_file] returns, from the one its commit left. *)
Definition footer (counts : nat * nat) (w : world) : world :=
  let w1 := set_out (w_out w ++ [MsgComplete (fst counts)]) w in
  if 0 <? snd counts
  then set_out (w_out w1 ++ [MsgWarning (snd counts)]) w1
  else w1.

(** The world when the file loop of [load_all_events] starts. *)
Definition announced (dir : string) (n : nat) (w : world) : world :=
  let w1 := set_trace (w_trace w ++ [OpListdir dir]) w in
  set_out (w_out w1 ++ [MsgFoundFiles n]) w1.

(** The lines of the summary. *)
Definition summary (totals : nat * nat) (n : nat) : list msg :=
  [MsgText banner; MsgText "[SUMMARY]"; MsgTotalLoaded (fst totals);
   MsgTotalErrors (snd totals); MsgFilesProcessed n; MsgText banner;
   MsgText "Next step: Query the data in MySQL Workbench!"].

Definition is_insert_error (m : msg) : bool :=
  match m with MsgInsertError _ _ => true | _ => false end.

Definition is_progress (m : msg) : bool :=
  match m with MsgProgress _ _ => true | _ => false end.



(** ** Reading an event *)

(** The record has an integer under [k], between [lo] and [hi]. *)
Definition int_field_in (items : list (string * pyval)) (k : string)
  (lo hi : Z) : Prop :=
  exists z, assoc k items = Some (PInt z) /\ (lo <= z <= hi)%Z.

(** The record has a string under [k], one of [l]. *)
Definition str_field_among (items : list (string * pyval)) (k : string)
  (l : list string) : Prop :=
  exists s, assoc k items = Some (PStr s) /\ In s l.






(** ** Concrete runtimes and worlds *)

(** A runtime whose store takes every row.  Its [round2] leaves its
    argument as it is; no property below depends on what [round2]
    returns. *)
Definition lenient : Runtime :=
  mkRuntime parse_iso (fun x => x) (fun _ _ => None).

Definition same_id (a b : pyval) : bool :=
  match a, b with
  | PStr x, PStr y => String.eqb x y
  | _, _ => false
  end.

(** A runtime whose store keeps [event_id] unique. *)
Definition unique_ids : Runtime :=
  mkRuntime parse_iso (fun x => x)
    (fun rows r =>
       if existsb (fun r' => same_id (event_id r') (event_id r)) rows
       then Some (DatabaseError "Duplicate entry")
       else None).

Definition sample_now : datetime := mkDatetime 2024 3 9 14 5 59 120034.

Definition view1 : pyval :=
  generate_page_view "e-1" 17 "s-1" sample_now 2 "index" 0 1.

Definition purchase1 : pyval :=
  @generate_purchase lenient 7 (fun _ => 0.5%float) "e-2" "o-1" 4242
    sample_now 1 "Lyon" "NY" "10001".

(** A record without a timestamp, and one whose timestamp does not parse. *)
Definition no_timestamp : pyval :=
  PDict [("event_type", PStr "page_view"); ("event_id", PStr "e-3")].


(** A page view that carries a shipping address and a rating. *)
Definition view_with_address : pyval :=
  PDict [("event_type", PStr "page_view"); ("event_id", PStr "e-5");
         ("timestamp", PStr "2024-03-09T14:05:59");
         ("rating", PInt 4);
         ("shipping_address", PDict [("city", PStr "Lyon")])].

Definition items_of (v : pyval) : list (string * pyval) :=
  match v with
  | PDict items => items
  | _ => []
  end.

Definition empty_world : world :=
  mkWorld [] [] sample_now None [] [] [] [].

(** A directory the operating system lists as [b.json], [a.json],
    [notes.txt]; both batch files are well formed. *)
Definition two_files : world :=
  mkWorld
    [("data/events", ["b.json"; "a.json"; "notes.txt"])]
    [("data/events/a.json", JsonText (PList [view1; no_timestamp]));
     ("data/events/b.json", JsonText (PList [purchase1]))]
    sample_now None [] [] [] [].

(** A connected world with one batch file whose second record of three
    has no timestamp. *)
Definition bad_record_in_the_middle : world :=
  mkWorld
    [("data/events", ["mixed.json"])]
    [("data/events/mixed.json",
      JsonText (PList [view1; no_timestamp; purchase1]))]
    sample_now None [] [mkConn true []] [] [].

(** The same directory when [a.json] precedes a broken [b.json] and a
    sound [c.json] follows. *)
Definition broken_middle : world :=
  mkWorld
    [("data/events", ["a.json"; "b.json"; "c.json"])]
    [("data/events/a.json", JsonText (PList [view1]));
     ("data/events/b.json", BadText "{oops");
     ("data/events/c.json", JsonText (PList [purchase1]))]
    sample_now None [] [] [] [].

(** A connected world with one batch file that holds the same event
    twice. *)
Definition same_event_twice : world :=
  mkWorld
    [("data/events", ["dup.json"])]
    [("data/events/dup.json", JsonText (PList [view1; view1]))]
    sample_now None [] [mkConn true []] [] [].

(** A connected world with one file that holds a sequence of numbers. *)
Definition numbers_file : world :=
  mkWorld
    [("data/events", ["numbers.json"])]
    [("data/events/numbers.json", JsonText (PList [PInt 1; PInt 2]))]
    sample_now None [] [mkConn true []] [] [].

(** A world whose server refuses connections. *)
Definition server_down : world :=
  mkWorld
    [("data/events", ["a.json"])]
    [("data/events/a.json", JsonText (PList [view1]))]
    sample_now (Some (OperationalError "Can't connect to MySQL server"))
    [] [] [] [].

(** [two_files] seen through a connection that has been closed. *)
Definition closed_connection : world :=
  mkWorld
    [("data/events", ["b.json"; "a.json"; "notes.txt"])]
    [("data/events/a.json", JsonText (PList [view1; no_timestamp]));
     ("data/events/b.json", JsonText (PList [purchase1]))]
    sample_now None [] [mkConn false []] [] [].

(** A connected world with one file that holds an object, not an array. *)
Definition object_file : world :=
  mkWorld
    [("data/events", ["object.json"])]
    [("data/events/object.json",
      JsonText (PDict [("event_type", PStr "page_view"); ("user_id", PInt 7)]))]
    sample_now None [] [mkConn true []] [] [].

(** A purchase whose shipping address is null. *)
Definition purchase_without_address : pyval :=
  PDict [("event_type", PStr "purchase"); ("event_id", PStr "e-6");
         ("timestamp", PStr "2024-03-09T14:05:59");
         ("shipping_address", PNone)].

(** A directory with no batch file. *)
Definition notes_only : world :=
  mkWorld [("data/events", ["notes.txt"])] [] sample_now None [] [] [] [].


(** * Properties *)

(** ** Reading back an ISO date-time *)

(** Splitting off the last decimal digit. *)
Lemma last_digit (n : N) :
  exists q r, (n / 10 = q /\ n mod 10 = r /\ n = 10 * q + r /\ r < 10)%N.
Proof.
  exists (n / 10)%N, (n mod 10)%N. repeat split.
  - apply N.div_mod. discriminate.
  - apply N.mod_lt. discriminate.
Qed.

Lemma digit_val_digit (n : N) : digit_val (digit n) = Some (n mod 10)%N.
Proof.
  unfold digit_val, digit.
  destruct (last_digit n) as (q & r & _ & -> & _ & Hr).
  rewrite N_ascii_embedding by lia.
  replace ((48 <=? 48 + r)%N) with true by (symmetry; apply N.leb_le; lia).
  replace ((48 + r <=? 57)%N) with true by (symmetry; apply N.leb_le; lia).
  cbn [andb]. f_equal. lia.
Qed.

Lemma number_pad2 (n : N) : (n < 100)%N -> number (pad 2 n) = Some n.
Proof.
  intros H. change (pad 2 n) with (String (digit (n / 10)) (String (digit n) "")).
  unfold number, digits_from. rewrite !digit_val_digit. f_equal.
  destruct (last_digit n) as (q & r & -> & -> & E & Hr).
  rewrite (N.mod_small q 10); lia.
Qed.

Lemma number_pad4 (n : N) : (n < 10000)%N -> number (pad 4 n) = Some n.
Proof.
  intros H.
  change (pad 4 n) with
    (String (digit (n / 10 / 10 / 10)) (String (digit (n / 10 / 10))
       (String (digit (n / 10)) (String (digit n) "")))).
  unfold number, digits_from. rewrite !digit_val_digit. f_equal.
  destruct (last_digit n) as (q & r & -> & -> & E & Hr).
  destruct (last_digit q) as (q1 & r1 & -> & -> & E1 & Hr1).
  destruct (last_digit q1) as (q2 & r2 & -> & -> & E2 & Hr2).
  rewrite (N.mod_small q2 10); lia.
Qed.

Lemma number_pad6 (n : N) : (n < 1000000)%N -> number (pad 6 n) = Some n.
Proof.
  intros H.
  change (pad 6 n) with
    (String (digit (n / 10 / 10 / 10 / 10 / 10))
       (String (digit (n / 10 / 10 / 10 / 10))
          (String (digit (n / 10 / 10 / 10)) (String (digit (n / 10 / 10))
             (String (digit (n / 10)) (String (digit n) "")))))).
  unfold number, digits_from. rewrite !digit_val_digit. f_equal.
  destruct (last_digit n) as (q & r & -> & -> & E & Hr).
  destruct (last_digit q) as (q1 & r1 & -> & -> & E1 & Hr1).
  destruct (last_digit q1) as (q2 & r2 & -> & -> & E2 & Hr2).
  destruct (last_digit q2) as (q3 & r3 & -> & -> & E3 & Hr3).
  destruct (last_digit q3) as (q4 & r4 & -> & -> & E4 & Hr4).
  rewrite (N.mod_small q4 10); lia.
Qed.

Ltac fold_pads :=
  repeat match goal with
    | |- context [String (digit (?n / 10 / 10 / 10 / 10 / 10)) ?t] =>
        change (String (digit (n / 10 / 10 / 10 / 10 / 10)) t) with (pad 6 n)
    | |- context [String (digit (?n / 10 / 10 / 10)) ?t] =>
        change (String (digit (n / 10 / 10 / 10)) t) with (pad 4 n)
    | |- context [String (digit (?n / 10)) ?t] =>
        change (String (digit (n / 10)) t) with (pad 2 n)
    end.

(** [parse_iso] reads back what [isoformat] writes. *)
Lemma parse_iso_isoformat (d : datetime) :
  valid_datetime d = true -> parse_iso (isoformat d) = Some d.
Proof.
  destruct d as [y mo dd h mi sec us]. intros V.
  assert (V' := V). unfold valid_datetime in V'.
  cbn [year month day hour minute second microsecond] in V'.
  repeat (apply andb_prop in V'; destruct V' as [V' ?]).
  repeat match goal with
         | H : (_ <=? _)%N = true |- _ => apply N.leb_le in H
         | H : (_ <? _)%N = true |- _ => apply N.ltb_lt in H
         end.
  assert (Hd : (dd < 100)%N).
  { assert (days_in_month y mo <= 31)%N; [| lia].
    unfold days_in_month.
    repeat match goal with |- context [if ?c then _ else _] => destruct c end; lia. }
  unfold isoformat. cbn [year month day hour minute second microsecond].
  destruct (N.eqb us 0) eqn:Eus.
  - apply N.eqb_eq in Eus. subst us.
    unfold parse_iso.
    cbn -[digit N.div N.modulo number valid_datetime].
    fold_pads.
    rewrite number_pad4, !number_pad2 by lia.
    now rewrite V.
  - unfold parse_iso.
    cbn -[digit N.div N.modulo number valid_datetime].
    fold_pads.
    rewrite number_pad4, number_pad6, !number_pad2 by lia.
    now rewrite V.
Qed.

Ltac conjs := repeat match goal with |- _ /\ _ => split end.

(** ** Connections *)

Lemma nth_error_update_nth {A} (f : A -> A) (l : list A) (n k : nat) :
  nth_error (update_nth n f l) k =
  if k =? n then option_map f (nth_error l k) else nth_error l k.
Proof.
  revert n k. induction l as [|x l IH]; intros n k.
  - destruct k, n; cbn; try reflexivity; now destruct (k =? n).
  - destruct n as [|n], k as [|k]; try reflexivity.
    cbn [update_nth nth_error]. rewrite IH. reflexivity.
Qed.

Lemma length_update_nth {A} (f : A -> A) (l : list A) (n : nat) :
  List.length (update_nth n f l) = List.length l.
Proof.
  revert n. induction l as [|x l IH]; intros [|n]; cbn; auto.
Qed.

Lemma quiet_refl (w : world) : quiet w w.
Proof. constructor; reflexivity. Qed.

Lemma quiet_trans (w1 w2 w3 : world) : quiet w1 w2 -> quiet w2 w3 -> quiet w1 w3.
Proof.
  intros [] []. constructor; congruence.
Qed.

Lemma quiet_set_out (w : world) (o : list msg) : quiet w (set_out o w).
Proof. constructor; reflexivity. Qed.

Lemma quiet_set_trace (w : world) (t : list op) : quiet w (set_trace t w).
Proof. constructor; reflexivity. Qed.

Lemma quiet_steady (w w' : world) : quiet w w' -> steady w w'.
Proof. intros []. constructor; assumption. Qed.

Lemma steady_refl (w : world) : steady w w.
Proof. constructor; reflexivity. Qed.

Lemma steady_trans (w1 w2 w3 : world) :
  steady w1 w2 -> steady w2 w3 -> steady w1 w3.
Proof. intros [] []. constructor; congruence. Qed.

Lemma chars_length (s : string) : List.length (chars s) = String.length s.
Proof. induction s; cbn; auto. Qed.

(** Whatever can be iterated has a length, the number of its items. *)
Lemma py_len_iter (v : pyval) (items : list pyval) :
  py_iter v = Ok items -> py_len v = Ok (List.length items).
Proof.
  destruct v; cbn; intros [= <-]; f_equal.
  - symmetry. apply chars_length.
  - unfold keys. now rewrite !length_map.
Qed.

Section LoaderFacts.
Context {rt : Runtime}.

(** *** One statement *)

Lemma insert_event_unfold (h : nat) (event : pyval) (w : world) :
  insert_event h event w =
  match insert_values event with
  | Ok r => cursor_execute h r w
  | Raise x => (Raise x, w)
  end.
Proof.
  unfold insert_event, bind, lift. destruct (insert_values event); reflexivity.
Qed.

(** What one [cursor.execute] does: nothing on a closed connection; on an
    open one the statement is sent, and the row joins the pending rows
    when the server accepts it. *)
Lemma cursor_execute_effect (h : nat) (r : row) (w : world) :
  exists res w' t,
    cursor_execute h r w = (res, w') /\
    quiet w w' /\
    w_out w' = w_out w /\
    w_trace w' = w_trace w ++ t /\
    forallb (is_execute_on h) t = true /\
    pending_of h w' = pending_of h w ++ accepted_rows t /\
    (res = Ok tt -> accepted_rows t = [r]) /\
    (conn_is_open h w = true -> List.length t = 1).
Proof.
  unfold cursor_execute.
  destruct (conn_is_open h w) eqn:Hopen.
  - destruct (store_check (w_table w ++ pending_of h w) r) as [x|] eqn:Hc.
    + exists (Raise x), (set_trace (w_trace w ++ [OpExecute h r false]) w),
        [OpExecute h r false].
      conjs; try reflexivity.
      * apply quiet_set_trace.
      * cbn. now rewrite Nat.eqb_refl.
      * cbn. now rewrite app_nil_r.
      * discriminate.
    + eexists (Ok tt), _, [OpExecute h r true].
      split; [reflexivity|].
      unfold conn_is_open, pending_of in *. cbn.
      destruct (nth_error (w_conns w) h) as [c|] eqn:Hn; [|discriminate].
      conjs; try reflexivity.
      * constructor; try reflexivity.
        -- intros k. unfold conn_is_open. cbn.
           rewrite nth_error_update_nth.
           destruct (Nat.eqb_spec k h); [subst; rewrite Hn; cbn; congruence | reflexivity].
        -- cbn. apply length_update_nth.
      * now rewrite Nat.eqb_refl.
      * rewrite nth_error_update_nth, Nat.eqb_refl, Hn. reflexivity.
  - exists (Raise (InterfaceError "closed")), w, [].
    conjs; try reflexivity; try discriminate.
    + apply quiet_refl.
    + now rewrite app_nil_r.
    + now rewrite app_nil_r.
Qed.

(** *** One record *)

(** The loop body never raises: whatever [insert_event] does, the turn
    ends with one of the two counters incremented. *)
Lemma load_event_unfold (h total idx : nat) (event : pyval) (s f : nat)
  (w : world) :
  load_event h total idx event s f w =
  match insert_event h event w with
  | (Ok _, w1) =>
      (Ok (S s, f),
       if idx mod 50 =? 0
       then set_out (w_out w1 ++ [MsgProgress idx total]) w1 else w1)
  | (Raise x, w1) =>
      (Ok (s, S f), set_out (w_out w1 ++ [MsgInsertError idx x]) w1)
  end.
Proof.
  unfold load_event, try_except, bind.
  destruct (insert_event h event w) as [[[]|x] w1]; [|reflexivity].
  destruct (idx mod 50 =? 0); reflexivity.
Qed.

Lemma accepted_rows_app (t1 t2 : list op) :
  accepted_rows (t1 ++ t2) = accepted_rows t1 ++ accepted_rows t2.
Proof.
  induction t1 as [|[] t1 IH]; cbn; auto.
  destruct accepted; cbn; now rewrite ?IH.
Qed.

Lemma loop_effect_refl (h : nat) (w : world) : loop_effect h w w [] [].
Proof.
  unfold loop_effect. conjs; try reflexivity; try now rewrite app_nil_r.
  apply quiet_refl.
Qed.

Lemma loop_effect_trans (h : nat) (w1 w2 w3 : world) t1 t2 o1 o2 :
  loop_effect h w1 w2 t1 o1 -> loop_effect h w2 w3 t2 o2 ->
  loop_effect h w1 w3 (t1 ++ t2) (o1 ++ o2).
Proof.
  intros (Q1 & T1 & E1 & O1 & M1 & P1) (Q2 & T2 & E2 & O2 & M2 & P2).
  unfold loop_effect. conjs.
  - eapply quiet_trans; eauto.
  - now rewrite T2, T1, app_assoc.
  - rewrite forallb_app. now rewrite E1, E2.
  - now rewrite O2, O1, app_assoc.
  - rewrite forallb_app. now rewrite M1, M2.
  - now rewrite P2, P1, accepted_rows_app, app_assoc.
Qed.

Lemma loop_effect_print (h : nat) (w : world) (m : msg) :
  is_record_msg m = true ->
  loop_effect h w (set_out (w_out w ++ [m]) w) [] [m].
Proof.
  intros Hm. unfold loop_effect. conjs; try reflexivity.
  - apply quiet_set_out.
  - cbn. now rewrite app_nil_r.
  - cbn. now rewrite Hm.
  - cbn. now rewrite app_nil_r.
Qed.

Lemma loop_effect_then_print (h : nat) (w w1 : world) t o (m : msg) :
  loop_effect h w w1 t o -> is_record_msg m = true ->
  loop_effect h w (set_out (w_out w1 ++ [m]) w1) t (o ++ [m]).
Proof.
  intros Eff Hm.
  pose proof (loop_effect_trans _ _ _ _ _ _ _ _ Eff (loop_effect_print h w1 m Hm)) as X.
  now rewrite app_nil_r in X.
Qed.

Lemma insert_event_effect (h : nat) (event : pyval) (w : world) :
  exists res w' t,
    insert_event h event w = (res, w') /\
    loop_effect h w w' t [] /\
    (conn_is_open h w = true ->
     List.length t = if buildable event then 1 else 0).
Proof.
  rewrite insert_event_unfold. unfold buildable.
  destruct (insert_values event) as [r|x].
  - destruct (cursor_execute_effect h r w)
      as (res & w' & t & E & Q & O & T & X & P & _ & L).
    exists res, w', t. split; [exact E|]. split; [|exact L].
    unfold loop_effect. conjs; auto. now rewrite app_nil_r.
  - exists (Raise x), w, []. split; [reflexivity|].
    split; [apply loop_effect_refl | reflexivity].
Qed.

Lemma load_event_effect (h total idx : nat) (event : pyval) (s f : nat)
  (w : world) :
  exists s' f' w' t o,
    load_event h total idx event s f w = (Ok (s', f'), w') /\
    s' + f' = S (s + f) /\
    loop_effect h w w' t o /\
    (conn_is_open h w = true ->
     List.length t = if buildable event then 1 else 0).
Proof.
  rewrite load_event_unfold.
  destruct (insert_event_effect h event w) as (res & w1 & t & E & Eff & L).
  rewrite E. destruct res as [[]|x].
  - destruct (idx mod 50 =? 0).
    + exists (S s), f, (set_out (w_out w1 ++ [MsgProgress idx total]) w1), t,
        [MsgProgress idx total].
      conjs; [reflexivity | lia | | exact L].
      now apply (loop_effect_then_print h w w1 t []).
    + exists (S s), f, w1, t, []. conjs; [reflexivity | lia | exact Eff | exact L].
  - exists s, (S f), (set_out (w_out w1 ++ [MsgInsertError idx x]) w1), t,
      [MsgInsertError idx x].
    conjs; [reflexivity | lia | | exact L].
    now apply (loop_effect_then_print h w w1 t []).
Qed.

(** *** The record loop *)

(** The loop over any list of records returns: every record ends in one
    of the two tallies, and the world changes only by the statements
    sent, the lines printed and the rows left pending. *)
Lemma load_events_effect (h total : nat) (events : list pyval) :
  forall idx s f w,
  exists s' f' w' t o,
    load_events h total events idx s f w = (Ok (s', f'), w') /\
    s' + f' = s + f + List.length events /\
    loop_effect h w w' t o /\
    (conn_is_open h w = true ->
     List.length t = List.length (filter buildable events)).
Proof.
  induction events as [|e rest IH]; intros idx s f w.
  - exists s, f, w, [], []. conjs; [reflexivity | cbn; lia | apply loop_effect_refl | reflexivity].
  - cbn [load_events]. unfold bind.
    destruct (load_event_effect h total idx e s f w)
      as (s1 & f1 & w1 & t1 & o1 & E1 & C1 & Eff1 & L1).
    rewrite E1. cbn [fst snd].
    destruct (IH (S idx) s1 f1 w1) as (s2 & f2 & w2 & t2 & o2 & E2 & C2 & Eff2 & L2).
    exists s2, f2, w2, (t1 ++ t2), (o1 ++ o2).
    conjs.
    + exact E2.
    + cbn [List.length]. lia.
    + eapply loop_effect_trans; eauto.
    + intros Hopen. rewrite length_app, L1 by exact Hopen.
      rewrite L2 by (destruct Eff1 as (Q & _); now rewrite (quiet_open _ _ Q)).
      cbn [filter]. destruct (buildable e); cbn [List.length]; lia.
Qed.

(** *** One file *)

Lemma load_json_file_raises (path : string) (h : nat) (w : world) (x : exn) :
  file_error path w = Some x ->
  load_json_file path h w =
  (Raise x,
   set_trace (w_trace w ++ [OpRead path])
     (set_out (w_out w ++ [MsgLoading path]) w)).
Proof.
  unfold file_error, load_json_file, bind, print, json_load_path, log, lift.
  cbn.
  destruct (assoc path (w_files w)) as [[v|raw]|]; try (intros [= <-]; reflexivity).
  destruct v; cbn; intros [= <-]; reflexivity.
Qed.

Lemma connection_commit_open (h : nat) (w : world) :
  conn_is_open h w = true ->
  exists w',
    connection_commit h w = (Ok tt, w') /\
    steady w w' /\
    w_out w' = w_out w /\
    w_trace w' = w_trace w ++ [OpCommit h] /\
    w_table w' = w_table w ++ pending_of h w /\
    pending_of h w' = [].
Proof.
  intros Hopen. unfold connection_commit. rewrite Hopen.
  eexists. split; [reflexivity|].
  unfold conn_is_open, pending_of in *.
  destruct (nth_error (w_conns w) h) as [c|] eqn:Hn; [|discriminate].
  conjs; try reflexivity.
  - constructor; try reflexivity.
    + intros k. unfold conn_is_open. cbn. rewrite nth_error_update_nth.
      destruct (Nat.eqb_spec k h); [subst; rewrite Hn; cbn; congruence | reflexivity].
    + cbn. apply length_update_nth.
  - cbn. now rewrite nth_error_update_nth, Nat.eqb_refl, Hn.
Qed.

(** A file that holds a sequence, read through an open connection: the
    call returns, with every record tallied; it reads the file, sends
    the statements [t], commits once, last; the table gains the pending
    rows and the rows accepted. *)
Lemma load_json_file_effect (path : string) (h : nat) (w : world)
  (v : pyval) (events : list pyval) :
  assoc path (w_files w) = Some (JsonText v) ->
  py_iter v = Ok events ->
  conn_is_open h w = true ->
  exists s f w' t o,
    load_json_file path h w = (Ok (s, f), w') /\
    s + f = List.length events /\
    steady w w' /\
    w_trace w' = w_trace w ++ OpRead path :: t ++ [OpCommit h] /\
    forallb (is_execute_on h) t = true /\
    List.length t = List.length (filter buildable events) /\
    w_table w' = w_table w ++ pending_of h w ++ accepted_rows t /\
    pending_of h w' = [] /\
    w_out w' =
      w_out w ++ MsgLoading path :: MsgFound (List.length events) :: o ++
        MsgComplete s :: (if 0 <? f then [MsgWarning f] else []) /\
    forallb is_record_msg o = true.
Proof.
  intros Hfile Hiter Hopen.
  unfold load_json_file, bind at 1 2 3 4 5.
  unfold print at 1, json_load_path, log, lift, bind. cbn.
  rewrite Hfile, (py_len_iter _ _ Hiter), Hiter.
  unfold print at 1. cbn.
  set (w0 := set_out _ _).
  destruct (load_events_effect h (List.length events) events 1 0 0 w0)
    as (s & f & w1 & t & o & E & C & (Q & T & X & O & Mo & P) & L).
  rewrite E.
  assert (Hopen1 : conn_is_open h w1 = true)
    by (rewrite (quiet_open _ _ Q); exact Hopen).
  destruct (connection_commit_open h w1 Hopen1)
    as (w2 & Ec & S2 & O2 & T2 & Tb2 & P2).
  rewrite Ec. cbn [fst snd].
  set (wc := set_out (w_out w2 ++ [MsgComplete s]) w2).
  exists s, f,
    (if 0 <? f then set_out (w_out wc ++ [MsgWarning f]) wc else wc), t, o.
  split.
  { unfold print. fold wc. destruct f; reflexivity. }
  assert (Sall : steady w wc).
  { apply (steady_trans w w0); [constructor; reflexivity|].
    apply (steady_trans w0 w1); [apply quiet_steady; exact Q|].
    apply (steady_trans w1 w2); [exact S2 | constructor; reflexivity]. }
  assert (Hopen0 : conn_is_open h w0 = true) by exact Hopen.
  conjs.
  - cbn in C. lia.
  - destruct (0 <? f); [|exact Sall].
    apply (steady_trans w wc); [exact Sall | constructor; reflexivity].
  - transitivity (w_trace wc); [destruct (0 <? f); reflexivity|].
    subst wc. cbn. rewrite T2, T. subst w0. cbn. now rewrite <- !app_assoc.
  - exact X.
  - apply L. exact Hopen0.
  - transitivity (w_table wc); [destruct (0 <? f); reflexivity|].
    subst wc. cbn. rewrite Tb2, P, (quiet_table _ _ Q). subst w0. cbn.
    now rewrite <- !app_assoc.
  - transitivity (pending_of h wc); [destruct (0 <? f); reflexivity|].
    exact P2.
  - destruct f; subst wc; cbn; rewrite O2, O; subst w0; cbn;
      rewrite <- !app_assoc; cbn; rewrite <- ?app_assoc; reflexivity.
  - exact Mo.
Qed.

Lemma load_events_app (h total : nat) (pre post : list pyval) :
  forall idx s f w,
    load_events h total (pre ++ post) idx s f w =
    match load_events h total pre idx s f w with
    | (Ok (s1, f1), w1) =>
        load_events h total post (idx + List.length pre) s1 f1 w1
    | (Raise x, w1) => (Raise x, w1)
    end.
Proof.
  induction pre as [|e pre IH]; intros idx s f w.
  - cbn. now rewrite Nat.add_0_r.
  - cbn [app load_events List.length]. unfold bind.
    destruct (load_event h total idx e s f w) as [[[s1 f1]|x] w1]; [|reflexivity].
    cbn [fst snd]. rewrite IH. now rewrite Nat.add_succ_r.
Qed.

Lemma executes_hold_no_commit (h : nat) (t : list op) :
  forallb (is_execute_on h) t = true -> filter is_commit t = [].
Proof.
  induction t as [|o t IH]; [reflexivity|].
  cbn. intros H. apply andb_prop in H. destruct H as [Ho Ht].
  destruct o; try discriminate. cbn. auto.
Qed.

(** ** The claims about [load_json_file] *)

(** C5.  For every batch file that holds a sequence of records,
    [load_json_file] returns a pair of counts whose sum is the number of
    records in the file. *)
Theorem load_json_file_tallies_every_record
  (path : string) (h : nat) (w : world) (events : list pyval) :
  assoc path (w_files w) = Some (JsonText (PList events)) ->
  conn_is_open h w = true ->
  exists success_count error_count w',
    load_json_file path h w = (Ok (success_count, error_count), w') /\
    success_count + error_count = List.length events.
Proof.
  intros Hfile Hopen.
  destruct (load_json_file_effect path h w _ _ Hfile eq_refl Hopen)
    as (s & f & w' & _ & _ & E & C & _).
  now exists s, f, w'.
Qed.

(** C6.  For every batch file that holds a sequence of records,
    [load_json_file] returns after these calls and no others: the file
    is read, then statements are sent on the connection, one for each
    record whose row could be built, then the connection is committed.
    So there is one commit, it comes last, and it adds to the table, at
    once, every row the server accepted. *)
Theorem load_json_file_commits_once_at_the_end
  (path : string) (h : nat) (w : world) (events : list pyval) :
  assoc path (w_files w) = Some (JsonText (PList events)) ->
  conn_is_open h w = true ->
  exists counts w' t,
    load_json_file path h w = (Ok counts, w') /\
    w_trace w' = w_trace w ++ OpRead path :: t ++ [OpCommit h] /\
    forallb (is_execute_on h) t = true /\
    List.length t = List.length (filter buildable events) /\
    List.length (filter is_commit (OpRead path :: t ++ [OpCommit h])) = 1 /\
    fst counts + snd counts = List.length events /\
    w_table w' = w_table w ++ pending_of h w ++ accepted_rows t /\
    pending_of h w' = [].
Proof.
  intros Hfile Hopen.
  destruct (load_json_file_effect path h w _ _ Hfile eq_refl Hopen)
    as (s & f & w' & t & o & E & C & S & T & X & L & Tb & P & _).
  exists (s, f), w', t. conjs; auto.
  cbn [filter is_commit]. rewrite filter_app, (executes_hold_no_commit h t X).
  reflexivity.
Qed.


(** ** The file loop *)

Lemma files_read_app (t1 t2 : list op) :
  files_read (t1 ++ t2) = files_read t1 ++ files_read t2.
Proof. induction t1 as [|[] t1 IH]; cbn; now rewrite ?IH. Qed.

Lemma reported_successes_app (o1 o2 : list msg) :
  reported_successes (o1 ++ o2) = reported_successes o1 + reported_successes o2.
Proof. induction o1 as [|[] o1 IH]; cbn; rewrite ?IH; lia. Qed.

Lemma reported_failures_app (o1 o2 : list msg) :
  reported_failures (o1 ++ o2) = reported_failures o1 + reported_failures o2.
Proof. induction o1 as [|[] o1 IH]; cbn; rewrite ?IH; lia. Qed.

Lemma record_msgs_report_nothing (o : list msg) :
  forallb is_record_msg o = true ->
  reported_successes o = 0 /\ reported_failures o = 0.
Proof.
  induction o as [|m o IH]; [auto|].
  cbn [forallb]. intros H. apply andb_prop in H. destruct H as [Hm Ho].
  destruct m; try discriminate; cbn; auto.
Qed.

(** What the trace of a stretch of statements on [h] holds: no file
    read, no commit, no close, no connection. *)
Lemma executes_only (h : nat) (t : list op) :
  forallb (is_execute_on h) t = true ->
  files_read t = [] /\ filter is_commit t = [] /\ filter is_close t = [] /\
  filter is_connect t = [] /\ forallb (on_handle h) t = true.
Proof.
  induction t as [|o t IH]; [cbn; auto|].
  cbn [forallb]. intros H. apply andb_prop in H. destruct H as [Ho Ht].
  destruct (IH Ht) as (A & B & C & D & E).
  destruct o; try discriminate. cbn in *. rewrite Ho. auto.
Qed.

Lemma files_done_nil (h : nat) : files_done h [] [].
Proof. constructor; reflexivity. Qed.

Lemma files_done_one (h : nat) (path : string) (t : list op) :
  forallb (is_execute_on h) t = true ->
  files_done h [path] (OpRead path :: t ++ [OpCommit h]).
Proof.
  intros X. destruct (executes_only h t X) as (A & B & C & D & E).
  constructor; cbn.
  - now rewrite files_read_app, A.
  - now rewrite filter_app, B.
  - now rewrite filter_app, C.
  - now rewrite filter_app, D.
  - rewrite forallb_app, E. cbn. now rewrite Nat.eqb_refl.
Qed.

Lemma files_done_app (h : nat) p1 p2 t1 t2 :
  files_done h p1 t1 -> files_done h p2 t2 ->
  files_done h (p1 ++ p2) (t1 ++ t2).
Proof.
  intros [] []. constructor.
  - rewrite files_read_app. congruence.
  - rewrite filter_app, length_app, repeat_app. congruence.
  - rewrite filter_app. now rewrite done_no_close0, done_no_close1.
  - rewrite filter_app. now rewrite done_no_connect0, done_no_connect1.
  - rewrite forallb_app. now rewrite done_handle0, done_handle1.
Qed.

Lemma file_error_steady (path : string) (w w' : world) :
  steady w w' -> file_error path w' = file_error path w.
Proof. intros S. unfold file_error. now rewrite (steady_files _ _ S). Qed.

Lemma file_error_none (path : string) (w : world) :
  file_error path w = None ->
  exists v events,
    assoc path (w_files w) = Some (JsonText v) /\ py_iter v = Ok events.
Proof.
  unfold file_error.
  destruct (assoc path (w_files w)) as [[v|raw]|]; try discriminate.
  destruct (py_iter v) as [events|x] eqn:E; try discriminate.
  intros _. now exists v, events.
Qed.

(** The loop over files every one of which can be loaded: it returns,
    having read the files in the order given and committed after each;
    the totals it returns are what it was given plus what the files
    reported. *)
Lemma load_files_effect (dir : string) (h : nat) (names : list string) :
  forall ts te w,
    conn_is_open h w = true ->
    Forall (fun name => file_error (path_join dir name) w = None) names ->
    exists ts' te' w' t o,
      load_files dir h names ts te w = (Ok (ts', te'), w') /\
      steady w w' /\
      w_trace w' = w_trace w ++ t /\
      w_out w' = w_out w ++ o /\
      files_done h (map (path_join dir) names) t /\
      ts' = ts + reported_successes o /\
      te' = te + reported_failures o /\
      List.length (filter is_complete o) = List.length names.
Proof.
  induction names as [|name rest IH]; intros ts te w Hopen Hall.
  - exists ts, te, w, [], [].
    conjs; try reflexivity; try (now rewrite app_nil_r); try (cbn; lia).
    + apply steady_refl.
    + apply files_done_nil.
  - inversion Hall as [|? ? Hname Hrest]; subst.
    destruct (file_error_none _ _ Hname) as (v & events & Hfile & Hiter).
    destruct (load_json_file_effect _ h w v events Hfile Hiter Hopen)
      as (s & f & w1 & t1 & o1 & E1 & C1 & S1 & T1 & X1 & L1 & Tb1 & P1 & O1 & M1).
    cbn [load_files]. unfold bind. rewrite E1. cbn [fst snd].
    assert (Hopen1 : conn_is_open h w1 = true)
      by (rewrite (steady_open _ _ S1); exact Hopen).
    assert (Hrest1 : Forall (fun name => file_error (path_join dir name) w1 = None) rest).
    { eapply Forall_impl; [|exact Hrest]. cbn. intros a Ha.
      now rewrite (file_error_steady _ _ _ S1). }
    destruct (IH (ts + s) (te + f) w1 Hopen1 Hrest1)
      as (ts' & te' & w2 & t2 & o2 & E2 & S2 & T2 & O2 & D2 & Ts & Te & Cm).
    destruct (record_msgs_report_nothing o1 M1) as (R1 & R2).
    eexists ts', te', w2, _, _.
    conjs.
    + exact E2.
    + eapply steady_trans; eauto.
    + rewrite T2, T1, <- app_assoc. reflexivity.
    + rewrite O2, O1, <- app_assoc. reflexivity.
    + cbn [map].
      apply (files_done_app h [path_join dir name] (map (path_join dir) rest));
        [apply files_done_one; exact X1 | exact D2].
    + rewrite Ts, reported_successes_app. cbn [reported_successes].
      rewrite reported_successes_app, R1. cbn [reported_successes].
      destruct (0 <? f); cbn; lia.
    + rewrite Te, reported_failures_app. cbn [reported_failures].
      rewrite reported_failures_app, R2. cbn [reported_failures].
      destruct (0 <? f) eqn:Ef; cbn; [lia|].
      apply Nat.ltb_ge in Ef. lia.
    + rewrite filter_app, length_app, Cm. cbn [filter].
      rewrite filter_app.
      assert (Hnone : filter is_complete o1 = []).
      { clear -M1. induction o1 as [|m o1 IHo]; [reflexivity|].
        cbn in M1. apply andb_prop in M1. destruct M1 as [Hm Ho].
        destruct m; try discriminate; cbn; auto. }
      rewrite Hnone. destruct (0 <? f); cbn; lia.
Qed.

Lemma load_files_app (dir : string) (h : nat) (pre post : list string) :
  forall ts te w,
    load_files dir h (pre ++ post) ts te w =
    match load_files dir h pre ts te w with
    | (Ok (ts1, te1), w1) => load_files dir h post ts1 te1 w1
    | (Raise x, w1) => (Raise x, w1)
    end.
Proof.
  induction pre as [|name pre IH]; intros ts te w; [reflexivity|].
  cbn [app load_files]. unfold bind.
  destruct (load_json_file (path_join dir name) h w) as [[[s f]|x] w1];
    [|reflexivity].
  cbn [fst snd]. apply IH.
Qed.

(** The file loop stops at the first file that cannot be loaded: the
    files before it are read and committed, the file itself is opened,
    and the error leaves the loop with nothing after it attempted. *)
Lemma load_files_stops (dir : string) (h : nat) (pre post : list string)
  (bad : string) (x : exn) (ts te : nat) (w : world) :
  conn_is_open h w = true ->
  Forall (fun name => file_error (path_join dir name) w = None) pre ->
  file_error (path_join dir bad) w = Some x ->
  exists w' t,
    load_files dir h (pre ++ bad :: post) ts te w = (Raise x, w') /\
    steady w w' /\
    w_trace w' = w_trace w ++ t ++ [OpRead (path_join dir bad)] /\
    files_done h (map (path_join dir) pre) t.
Proof.
  intros Hopen Hpre Hbad.
  destruct (load_files_effect dir h pre ts te w Hopen Hpre)
    as (ts1 & te1 & w1 & t & o & E & S & T & O & D & _).
  rewrite load_files_app, E. cbn [load_files]. unfold bind.
  rewrite (load_json_file_raises _ h w1 x)
    by (rewrite (file_error_steady _ _ _ S); exact Hbad).
  eexists _, t. conjs; [reflexivity | | | exact D].
  - eapply steady_trans; [exact S|]. constructor; reflexivity.
  - cbn. rewrite T. now rewrite <- app_assoc.
Qed.

(** Whatever the files hold, the file loop neither connects nor closes,
    and every database call it makes goes through the connection given. *)
Lemma load_files_calls (dir : string) (h : nat) (names : list string) :
  forall ts te w,
    conn_is_open h w = true ->
    exists r w' t,
      load_files dir h names ts te w = (r, w') /\
      steady w w' /\
      w_trace w' = w_trace w ++ t /\
      filter is_connect t = [] /\
      filter is_close t = [] /\
      forallb (on_handle h) t = true.
Proof.
  induction names as [|name rest IH]; intros ts te w Hopen.
  - exists (Ok (ts, te)), w, [].
    conjs; try reflexivity; [apply steady_refl | now rewrite app_nil_r].
  - cbn [load_files]. unfold bind.
    destruct (file_error (path_join dir name) w) as [x|] eqn:Herr.
    + rewrite (load_json_file_raises _ h w x Herr).
      eexists _, _, [OpRead (path_join dir name)].
      conjs; try reflexivity. constructor; reflexivity.
    + destruct (file_error_none _ _ Herr) as (v & events & Hfile & Hiter).
      destruct (load_json_file_effect _ h w v events Hfile Hiter Hopen)
        as (s & f & w1 & t1 & o1 & E1 & C1 & S1 & T1 & X1 & _).
      rewrite E1. cbn [fst snd].
      assert (Hopen1 : conn_is_open h w1 = true)
        by (rewrite (steady_open _ _ S1); exact Hopen).
      destruct (IH (ts + s) (te + f) w1 Hopen1)
        as (r & w2 & t2 & E2 & S2 & T2 & A & B & C).
      destruct (files_done_one h (path_join dir name) t1 X1).
      exists r, w2, ((OpRead (path_join dir name) :: t1 ++ [OpCommit h]) ++ t2).
      conjs.
      * exact E2.
      * eapply steady_trans; eauto.
      * rewrite T2, T1. now rewrite <- app_assoc.
      * rewrite filter_app. now rewrite done_no_connect0, A.
      * rewrite filter_app. now rewrite done_no_close0, B.
      * rewrite forallb_app. now rewrite done_handle0, C.
Qed.

(** ** The whole run *)

Lemma get_db_connection_down (w : world) (e : exn) :
  w_connect_error w = Some e ->
  get_db_connection w =
  (Ok None,
   set_out (w_out w ++ [MsgConnectError e])
     (set_trace (w_trace w ++ [OpConnectFailed]) w)).
Proof.
  intros H. unfold get_db_connection, try_except, bind, pymysql_connect.
  rewrite H. reflexivity.
Qed.

Lemma get_db_connection_up (w : world) :
  w_connect_error w = None ->
  get_db_connection w = (Ok (Some (List.length (w_conns w))), connected w).
Proof.
  intros H. unfold get_db_connection, try_except, bind, pymysql_connect.
  rewrite H. reflexivity.
Qed.

Lemma connected_open (w : world) :
  conn_is_open (List.length (w_conns w)) (connected w) = true.
Proof.
  unfold conn_is_open, connected. cbn.
  rewrite nth_error_app2 by lia. now rewrite Nat.sub_diag.
Qed.

Lemma load_all_events_down (events_dir : string) (w : world) (e : exn) :
  w_connect_error w = Some e ->
  exists w',
    load_all_events events_dir w = (Ok tt, w') /\
    w_trace w' = w_trace w ++ [OpConnectFailed] /\
    w_out w' = w_out w ++ heading ++ [MsgConnectError e] /\
    w_table w' = w_table w /\
    w_files w' = w_files w.
Proof.
  intros H. unfold load_all_events.
  unfold bind at 1 2 3 4. unfold print at 1 2 3. cbn [fst snd].
  rewrite get_db_connection_down with (e := e) by exact H.
  eexists. split; [reflexivity|].
  cbn. rewrite <- !app_assoc. auto.
Qed.

(** C2, as the code has it.  If the connection cannot be established,
    [load_all_events] returns normally: [get_db_connection] catches the
    exception and prints it, and [load_all_events] returns on seeing no
    connection.  The one call made is the failed connection: no
    directory is listed, no file is read, and the table is as it was. *)
Theorem load_all_events_returns_when_server_is_down
  (events_dir : string) (w : world) (e : exn) :
  w_connect_error w = Some e ->
  exists w' t,
    load_all_events events_dir w = (Ok tt, w') /\
    w_trace w' = w_trace w ++ t /\
    t = [OpConnectFailed] /\
    filter is_file_op t = [] /\
    w_out w' = w_out w ++ heading ++ [MsgConnectError e] /\
    w_table w' = w_table w /\
    w_files w' = w_files w.
Proof.
  intros H.
  destruct (load_all_events_down events_dir w e H) as (w' & E & T & O & Tb & F).
  exists w', [OpConnectFailed]. conjs; auto.
Qed.

Lemma file_error_same_files (path : string) (w w' : world) :
  w_files w' = w_files w -> file_error path w' = file_error path w.
Proof. intros E. unfold file_error. now rewrite E. Qed.

Lemma load_all_events_up (events_dir : string) (w : world) :
  w_connect_error w = None ->
  load_all_events events_dir w =
  load_with_connection events_dir (List.length (w_conns w)) (greeted w).
Proof.
  intros Hup. unfold load_all_events.
  unfold bind at 1 2 3 4. unfold print at 1 2 3. cbn [fst snd].
  rewrite get_db_connection_up by exact Hup.
  unfold greeted, connected, heading. cbn. rewrite <- !app_assoc. reflexivity.
Qed.

Lemma greeted_open (w : world) :
  conn_is_open (List.length (w_conns w)) (greeted w) = true.
Proof. apply (connected_open (set_out (w_out w ++ heading) w)). Qed.

Lemma connection_close_open (h : nat) (w : world) :
  conn_is_open h w = true ->
  exists w',
    connection_close h w = (Ok tt, w') /\
    w_listing w' = w_listing w /\ w_files w' = w_files w /\
    w_table w' = w_table w /\
    w_out w' = w_out w /\
    w_trace w' = w_trace w ++ [OpClose h] /\
    conn_is_open h w' = false.
Proof.
  intros Hopen. unfold connection_close. rewrite Hopen.
  eexists. split; [reflexivity|]. conjs; try reflexivity.
  unfold conn_is_open in *. cbn. rewrite nth_error_update_nth, Nat.eqb_refl.
  destruct (nth_error (w_conns w) h); [reflexivity | discriminate].
Qed.

Lemma no_connect_in (t : list op) (h : nat) :
  filter is_connect t = [] -> ~ In (OpConnect h) t.
Proof.
  intros Hf Hin.
  assert (X : In (OpConnect h) (filter is_connect t))
    by (apply filter_In; split; [exact Hin | reflexivity]).
  rewrite Hf in X. exact X.
Qed.

(** Once connected, whatever the directory holds: the directory is
    listed first; no further connection is made; every database call
    goes through the connection held; and if the function returns, its
    last call closes that connection, which no earlier call did. *)
Lemma load_with_connection_calls (events_dir : string) (h : nat) (w : world) :
  conn_is_open h w = true ->
  exists r w' t,
    load_with_connection events_dir h w = (r, w') /\
    w_trace w' = w_trace w ++ OpListdir events_dir :: t /\
    filter is_connect t = [] /\
    forallb (on_handle h) t = true /\
    (r = Ok tt ->
     exists t0, t = t0 ++ [OpClose h] /\ filter is_close t0 = [] /\
                conn_is_open h w' = false).
Proof.
  intros Hopen. unfold load_with_connection.
  unfold bind at 1. unfold os_listdir, bind at 1, log. cbn [fst snd].
  set (w1 := set_trace (w_trace w ++ [OpListdir events_dir]) w).
  change (w_listing w1) with (w_listing w).
  assert (Hopen1 : conn_is_open h w1 = true) by exact Hopen.
  assert (T1 : w_trace w1 = w_trace w ++ [OpListdir events_dir]) by reflexivity.
  clearbody w1.
  destruct (assoc events_dir (w_listing w)) as [names|].
  2:{ exists (Raise (FileNotFoundError events_dir)), w1, [].
      conjs; try reflexivity; [exact T1 | discriminate]. }
  destruct (filter (fun f => str_endswith f ".json") names) as [|name rest] eqn:Hj.
  - unfold bind, print. cbn [fst snd].
    set (w2 := set_out _ w1).
    assert (Hopen2 : conn_is_open h w2 = true) by exact Hopen1.
    destruct (connection_close_open h w2 Hopen2)
      as (w3 & Ec & _ & _ & _ & _ & T3 & Cl).
    rewrite Ec. exists (Ok tt), w3, [OpClose h].
    conjs; try reflexivity.
    + rewrite T3. subst w2. cbn. rewrite T1. now rewrite <- app_assoc.
    + cbn. now rewrite Nat.eqb_refl.
    + intros _. exists []. auto.
  - unfold bind at 1. unfold print at 1. cbn [fst snd].
    set (w2 := set_out _ w1).
    assert (Hopen2 : conn_is_open h w2 = true) by exact Hopen1.
    destruct (load_files_calls events_dir h (name :: rest) 0 0 w2 Hopen2)
      as (r & w3 & t & E & S & T & A & B & C).
    unfold bind at 1. rewrite E.
    destruct r as [totals|x].
    2:{ exists (Raise x), w3, t. conjs; auto; [|discriminate].
        rewrite T. subst w2. cbn. rewrite T1. now rewrite <- app_assoc. }
    assert (Hopen3 : conn_is_open h w3 = true)
      by (rewrite (steady_open _ _ S); exact Hopen2).
    destruct (connection_close_open h w3 Hopen3)
      as (w4 & Ec & _ & _ & _ & _ & T4 & Cl).
    unfold bind at 1. rewrite Ec.
    eexists (Ok tt), _, (t ++ [OpClose h]).
    split; [reflexivity|]. cbn.
    conjs.
    + rewrite T4, T. subst w2. cbn. rewrite T1. now rewrite <- !app_assoc.
    + rewrite filter_app, A. reflexivity.
    + rewrite forallb_app, C. cbn. now rewrite Nat.eqb_refl.
    + intros _. exists t. conjs; auto.
Qed.

(** C4, as the code has it.  On every invocation of [load_all_events]
    one connection is attempted; every database call of the run goes
    through the connection made; and on every path on which the
    function returns with a connection made, the last call of the run
    closes it, no earlier call does, and the connection is closed in
    the world returned. *)
Theorem load_all_events_closes_its_connection_on_return
  (events_dir : string) (w : world) :
  exists r w' t,
    load_all_events events_dir w = (r, w') /\
    w_trace w' = w_trace w ++ t /\
    List.length (filter is_connect t) = 1 /\
    forall h,
      In (OpConnect h) t ->
      forallb (on_handle h) t = true /\
      (r = Ok tt ->
       exists t0, t = t0 ++ [OpClose h] /\ filter is_close t0 = [] /\
                  conn_is_open h w' = false).
Proof.
  destruct (w_connect_error w) as [e|] eqn:Hc.
  - destruct (load_all_events_down events_dir w e Hc) as (w' & E & T & _).
    exists (Ok tt), w', [OpConnectFailed].
    conjs; auto. intros h [Hin|[]]. discriminate.
  - rewrite (load_all_events_up events_dir w Hc).
    set (h0 := List.length (w_conns w)).
    destruct (load_with_connection_calls events_dir h0 (greeted w) (greeted_open w))
      as (r & w' & t & E & T & A & B & C).
    exists r, w', (OpConnect h0 :: OpListdir events_dir :: t).
    conjs.
    + exact E.
    + rewrite T. unfold greeted, connected. cbn. now rewrite <- app_assoc.
    + cbn. now rewrite A.
    + intros h [Hin|[Hin|Hin]]; try discriminate.
      2:{ now apply no_connect_in in Hin. }
      injection Hin as <-. split.
      * cbn. now rewrite Nat.eqb_refl.
      * intros Hr. destruct (C Hr) as (t0 & -> & Hcl & Hclosed).
        exists (OpConnect h0 :: OpListdir events_dir :: t0). conjs; auto.
Qed.

(** The connected part of the run over a directory whose batch files
    can all be loaded. *)
Lemma load_with_connection_effect (events_dir : string) (h : nat)
  (w : world) (names : list string) :
  conn_is_open h w = true ->
  assoc events_dir (w_listing w) = Some names ->
  Forall (fun name => file_error (path_join events_dir name) w = None)
    (filter (fun f => str_endswith f ".json") names) ->
  exists w' t o,
    load_with_connection events_dir h w = (Ok tt, w') /\
    w_trace w' = w_trace w ++ OpListdir events_dir :: t ++ [OpClose h] /\
    files_done h
      (map (path_join events_dir)
         (filter (fun f => str_endswith f ".json") names)) t /\
    w_out w' = w_out w ++ o /\
    List.length (filter is_complete o) =
      List.length (filter (fun f => str_endswith f ".json") names) /\
    (filter (fun f => str_endswith f ".json") names <> [] ->
     In (MsgTotalLoaded (reported_successes o)) o /\
     In (MsgTotalErrors (reported_failures o)) o /\
     In (MsgFilesProcessed
           (List.length (filter (fun f => str_endswith f ".json") names))) o).
Proof.
  intros Hopen Hdir Hall. unfold load_with_connection.
  unfold bind at 1. unfold os_listdir, bind at 1, log. cbn [fst snd].
  set (w1 := set_trace (w_trace w ++ [OpListdir events_dir]) w).
  change (w_listing w1) with (w_listing w). rewrite Hdir.
  assert (Hopen1 : conn_is_open h w1 = true) by exact Hopen.
  assert (T1 : w_trace w1 = w_trace w ++ [OpListdir events_dir]) by reflexivity.
  assert (O1 : w_out w1 = w_out w) by reflexivity.
  assert (F1 : w_files w1 = w_files w) by reflexivity.
  clearbody w1.
  destruct (filter (fun f => str_endswith f ".json") names) as [|name rest] eqn:Hj.
  - unfold bind, print. cbn [fst snd].
    set (w2 := set_out _ w1).
    assert (Hopen2 : conn_is_open h w2 = true) by exact Hopen1.
    destruct (connection_close_open h w2 Hopen2)
      as (w3 & Ec & _ & _ & _ & O3 & T3 & Cl).
    rewrite Ec. exists w3, [], [MsgNoFiles events_dir].
    conjs; try reflexivity.
    + rewrite T3. subst w2. cbn. rewrite T1. now rewrite <- app_assoc.
    + apply files_done_nil.
    + rewrite O3. subst w2. cbn. now rewrite O1.
    + intros X. now contradiction X.
  - unfold bind at 1. unfold print at 1. cbn [fst snd].
    set (w2 := set_out _ w1).
    assert (Hopen2 : conn_is_open h w2 = true) by exact Hopen1.
    assert (Hall2 : Forall (fun n => file_error (path_join events_dir n) w2 = None)
                      (name :: rest)).
    { eapply Forall_impl; [|exact Hall]. cbn. intros a Ha.
      rewrite <- Ha. apply file_error_same_files. exact F1. }
    destruct (load_files_effect events_dir h (name :: rest) 0 0 w2 Hopen2 Hall2)
      as (ts & te & w3 & t & o & E & S & T & O & D & Ts & Te & Cm).
    unfold bind at 1. rewrite E.
    assert (Hopen3 : conn_is_open h w3 = true)
      by (rewrite (steady_open _ _ S); exact Hopen2).
    destruct (connection_close_open h w3 Hopen3)
      as (w4 & Ec & _ & _ & _ & O4 & T4 & Cl).
    unfold bind at 1. rewrite Ec.
    set (n := List.length (name :: rest)) in *.
    eexists _, t,
      (MsgFoundFiles n :: o ++
         [MsgText banner; MsgText "[SUMMARY]"; MsgTotalLoaded ts;
          MsgTotalErrors te; MsgFilesProcessed n; MsgText banner;
          MsgText "Next step: Query the data in MySQL Workbench!"]).
    split; [reflexivity|]. cbn [fst snd].
    assert (Rs : reported_successes
                   (MsgFoundFiles n :: o ++
                      [MsgText banner; MsgText "[SUMMARY]"; MsgTotalLoaded ts;
                       MsgTotalErrors te; MsgFilesProcessed n; MsgText banner;
                       MsgText "Next step: Query the data in MySQL Workbench!"]) = ts).
    { cbn [reported_successes]. rewrite reported_successes_app. cbn. lia. }
    assert (Rf : reported_failures
                   (MsgFoundFiles n :: o ++
                      [MsgText banner; MsgText "[SUMMARY]"; MsgTotalLoaded ts;
                       MsgTotalErrors te; MsgFilesProcessed n; MsgText banner;
                       MsgText "Next step: Query the data in MySQL Workbench!"]) = te).
    { cbn [reported_failures]. rewrite reported_failures_app. cbn. lia. }
    conjs.
    + cbn. rewrite T4, T. subst w2. cbn. rewrite T1. now rewrite <- !app_assoc.
    + exact D.
    + cbn. rewrite O4, O. subst w2. cbn. rewrite O1.
      rewrite <- !app_assoc. reflexivity.
    + cbn [filter is_complete]. rewrite filter_app, length_app, Cm. cbn. lia.
    + intros _. rewrite Rs, Rf. conjs.
      * right. apply in_or_app. right. cbn. tauto.
      * right. apply in_or_app. right. cbn. tauto.
      * right. apply in_or_app. right. cbn. tauto.
Qed.

(** C8, as the code has it.  With the server reachable and every batch
    file of the directory loadable, [load_all_events] returns having read
    the entries of the directory's listing whose name ends in [.json],
    each once, joined to the directory (so none from below it), in the
    order of the listing; it prints one completion line per file; and,
    when there is at least one file, the totals it prints are the sums
    of the successes and of the failures reported file by file, with
    the number of files. *)
Theorem load_all_events_loads_files_in_listing_order
  (events_dir : string) (w : world) (names : list string) :
  w_connect_error w = None ->
  assoc events_dir (w_listing w) = Some names ->
  Forall (fun name => file_error (path_join events_dir name) w = None)
    (filter (fun f => str_endswith f ".json") names) ->
  exists w' t o,
    load_all_events events_dir w = (Ok tt, w') /\
    w_trace w' = w_trace w ++ t /\
    w_out w' = w_out w ++ o /\
    files_read t =
      map (path_join events_dir)
        (filter (fun f => str_endswith f ".json") names) /\
    List.length (filter is_complete o) =
      List.length (filter (fun f => str_endswith f ".json") names) /\
    (filter (fun f => str_endswith f ".json") names <> [] ->
     In (MsgTotalLoaded (reported_successes o)) o /\
     In (MsgTotalErrors (reported_failures o)) o /\
     In (MsgFilesProcessed
           (List.length (filter (fun f => str_endswith f ".json") names))) o).
Proof.
  intros Hup Hdir Hall.
  rewrite (load_all_events_up events_dir w Hup).
  set (h := List.length (w_conns w)).
  destruct (load_with_connection_effect events_dir h (greeted w) names
              (greeted_open w) Hdir Hall)
    as (w' & t & o & E & T & D & O & Cm & Sum).
  exists w', (OpConnect h :: OpListdir events_dir :: t ++ [OpClose h]),
    (heading ++ MsgConnected :: o).
  conjs.
  - exact E.
  - rewrite T. unfold greeted, connected. cbn. now rewrite <- app_assoc.
  - rewrite O. unfold greeted, connected. cbn. now rewrite <- !app_assoc.
  - cbn [files_read]. rewrite files_read_app. cbn [files_read].
    rewrite app_nil_r. apply (done_reads _ _ _ D).
  - cbn. exact Cm.
  - intros Hne. destruct (Sum Hne) as (A & B & C).
    change (reported_successes (heading ++ MsgConnected :: o))
      with (reported_successes o).
    change (reported_failures (heading ++ MsgConnected :: o))
      with (reported_failures o).
    conjs; apply in_or_app; right; right; assumption.
Qed.

(** C3, as the code has it.  If a batch file of the directory cannot be
    loaded (it cannot be opened, it is not JSON, or it holds a value
    with no length), [load_json_file] raises on it, and
    [load_all_events] lets the error through: the run ends raising it.
    The batch files listed before the first such file have been read and
    committed, one commit each; that file is the last one opened, so no
    file listed after it is attempted. *)
Theorem load_all_events_stops_at_unloadable_file
  (events_dir : string) (w : world) (names pre post : list string)
  (bad : string) (x : exn) :
  w_connect_error w = None ->
  assoc events_dir (w_listing w) = Some names ->
  filter (fun f => str_endswith f ".json") names = pre ++ bad :: post ->
  Forall (fun name => file_error (path_join events_dir name) w = None) pre ->
  file_error (path_join events_dir bad) w = Some x ->
  (forall h w0, w_files w0 = w_files w ->
     fst (load_json_file (path_join events_dir bad) h w0) = Raise x) /\
  exists w' t,
    load_all_events events_dir w = (Raise x, w') /\
    w_trace w' = w_trace w ++ t /\
    files_read t = map (path_join events_dir) (pre ++ [bad]) /\
    filter is_commit t =
      repeat (OpCommit (List.length (w_conns w))) (List.length pre).
Proof.
  intros Hup Hdir Hj Hpre Hbad. split.
  - intros h w0 Hf.
    rewrite (load_json_file_raises _ h w0 x); [reflexivity|].
    now rewrite (file_error_same_files _ w w0 Hf).
  - rewrite (load_all_events_up events_dir w Hup).
    set (h := List.length (w_conns w)).
    unfold load_with_connection.
    unfold bind at 1. unfold os_listdir, bind at 1, log. cbn [fst snd].
    set (w1 := set_trace _ (greeted w)).
    change (w_listing w1) with (w_listing w). rewrite Hdir, Hj.
    assert (Hne : exists a l, pre ++ bad :: post = a :: l)
      by (destruct pre; cbn; eauto).
    destruct Hne as (a & l & Hal). rewrite Hal.
    unfold bind at 1. unfold print at 1. cbn [fst snd]. rewrite <- Hal.
    set (w2 := set_out _ w1).
    assert (Hopen2 : conn_is_open h w2 = true) by (apply (greeted_open w)).
    assert (Hpre2 : Forall (fun n => file_error (path_join events_dir n) w2 = None) pre).
    { eapply Forall_impl; [|exact Hpre]. cbn. intros n Hn. exact Hn. }
    destruct (load_files_stops events_dir h pre post bad x 0 0 w2 Hopen2 Hpre2 Hbad)
      as (w3 & t & E & S & T & D).
    unfold bind at 1. rewrite E.
    exists w3, (OpConnect h :: OpListdir events_dir :: t ++
                  [OpRead (path_join events_dir bad)]).
    conjs.
    + reflexivity.
    + rewrite T. subst w2 w1. unfold greeted, connected. cbn.
      now rewrite <- !app_assoc.
    + cbn [files_read]. rewrite files_read_app, map_app. cbn.
      now rewrite (done_reads _ _ _ D).
    + cbn [filter is_commit]. rewrite filter_app. cbn.
      rewrite app_nil_r, (done_commits _ _ _ D). now rewrite length_map.
Qed.

(** ** Saving a batch and loading it back *)



End LoaderFacts.










(** *** Paths *)







(** *** Directories *)



(** *** [save_events] *)



Section RoundTrip.
Context {rt : Runtime}.



End RoundTrip.

(** ** The row of an event *)

Lemma assoc_absent {V : Type} (k : string) (items : list (string * V)) :
  ~ In k (keys items) -> assoc k items = None.
Proof.
  induction items as [|[k' v] items IH]; [reflexivity|].
  cbn. intros H. destruct (String.eqb_spec k k') as [->|Hne].
  - exfalso. apply H. now left.
  - apply IH. intros Hin. apply H. now right.
Qed.

Lemma mem_In (k : string) (l : list string) : mem k l = true -> In k l.
Proof.
  unfold mem. intros H. apply existsb_exists in H.
  destruct H as (x & Hin & Hx). apply String.eqb_eq in Hx. now subst.
Qed.

Section RowFacts.
Context {rt : Runtime}.

(** The row of a record that is a dictionary with a timestamp that
    parses and a shipping address that is absent or an object: each
    column holds what the record has under its key, or [None]. *)
Lemma insert_values_dict (items : list (string * pyval)) (t : string)
  (d : datetime) (addr : list (string * pyval)) :
  assoc "timestamp" items = Some (PStr t) ->
  fromisoformat t = Some d ->
  match assoc "shipping_address" items with
  | Some x => x
  | None => PDict []
  end = PDict addr ->
  insert_values (PDict items) =
  Ok (mkRow (get_or_none items "event_id") (get_or_none items "event_type")
        (get_or_none items "user_id") (get_or_none items "session_id") d
        (get_or_none items "page_url") (get_or_none items "device")
        (get_or_none items "browser") (get_or_none items "product_id")
        (get_or_none items "product_name") (get_or_none items "price")
        (get_or_none items "quantity") (get_or_none items "order_id")
        (get_or_none items "total_amount") (get_or_none items "items_count")
        (get_or_none items "payment_method")
        (get_or_none addr "city") (get_or_none addr "state")
        (get_or_none addr "zip")
        (get_or_none items "rating") (get_or_none items "review_text")
        (get_or_none items "verified_purchase")).
Proof.
  intros Hts Hd Hship.
  unfold insert_values. cbn [py_getitem]. rewrite Hts.
  cbn [rbind datetime_fromisoformat]. rewrite Hd. cbn [rbind].
  assert (Hs : py_get_default (PDict items) "shipping_address" (PDict []) =
               Ok (PDict addr)).
  { cbn [py_get_default]. destruct (assoc "shipping_address" items);
      now rewrite Hship. }
  rewrite Hs. cbn [rbind].
  assert (Hg : forall its k, py_get (PDict its) k = Ok (get_or_none its k)).
  { intros its k. unfold py_get, get_or_none. now destruct (assoc k its). }
  rewrite !Hg. reflexivity.
Qed.

End RowFacts.

Section RowClaim.
Context {rt : Runtime}.

Lemma conforms_keys (v : variant) (items : list (string * pyval)) (k : string) :
  conforms v items = true ->
  ~ In k common_fields -> ~ In k (variant_fields v) -> assoc k items = None.
Proof.
  intros Hc Hcom Hvar. apply assoc_absent. intros Hin.
  unfold conforms in Hc.
  apply andb_prop in Hc. destruct Hc as [Hc _].
  apply andb_prop in Hc. destruct Hc as [_ Hkeys].
  rewrite forallb_forall in Hkeys. apply Hkeys, mem_In in Hin.
  apply in_app_or in Hin. tauto.
Qed.

Lemma column_field_not_common (c : column) : ~ In (column_field c) common_fields.
Proof. destruct c; cbn; intuition discriminate. Qed.

(** C7, as the code has it.  For every event record whose keys are
    among the fields of its variant and whose timestamp parses, the
    row is built, and in it every column read from a field not defined
    for the variant is null; the shipping columns are read from the
    nested object when the variant is [purchase], and are null for the
    other variants. *)
Theorem row_of_conforming_event
  (v : variant) (items : list (string * pyval)) (t : string) (d : datetime) :
  conforms v items = true ->
  assoc "timestamp" items = Some (PStr t) ->
  fromisoformat t = Some d ->
  exists r,
    insert_values (PDict items) = Ok r /\
    (forall c, ~ In (column_field c) (variant_fields v) ->
               column_value c r = PNone) /\
    (v = Purchase ->
     exists addr,
       assoc "shipping_address" items = Some (PDict addr) /\
       shipping_city r = get_or_none addr "city" /\
       shipping_state r = get_or_none addr "state" /\
       shipping_zip r = get_or_none addr "zip") /\
    (v <> Purchase ->
     shipping_city r = PNone /\ shipping_state r = PNone /\
     shipping_zip r = PNone).
Proof.
  intros Hc Hts Hd.
  assert (Haddr : exists addr,
             match assoc "shipping_address" items with
             | Some x => x
             | None => PDict []
             end = PDict addr /\
             (v = Purchase -> assoc "shipping_address" items = Some (PDict addr)) /\
             (v <> Purchase -> addr = [])).
  { destruct v.
    2,4: (exists []; rewrite (conforms_keys _ items "shipping_address" Hc);
          [conjs; [reflexivity | discriminate | reflexivity]
          | cbn; intuition discriminate | cbn; intuition discriminate]).
    - exists []. rewrite (conforms_keys _ items "shipping_address" Hc);
        [conjs; [reflexivity | discriminate | reflexivity]
        | cbn; intuition discriminate | cbn; intuition discriminate].
    - unfold conforms in Hc. apply andb_prop in Hc. destruct Hc as [_ Hs].
      destruct (assoc "shipping_address" items) as [[]|]; try discriminate.
      exists items0. conjs; [reflexivity | reflexivity | congruence]. }
  destruct Haddr as (addr & Hship & Hpur & Hother).
  eexists. split; [exact (insert_values_dict items t d addr Hts Hd Hship)|].
  conjs.
  - intros c Hc'.
    assert (Hnone : forall k, k = column_field c -> get_or_none items k = PNone).
    { intros k ->. unfold get_or_none.
      now rewrite (conforms_keys v items _ Hc (column_field_not_common c) Hc'). }
    destruct c; cbn [column_value session_id page_url device browser
                       product_id product_name price quantity order_id
                       total_amount items_count payment_method shipping_city
                       shipping_state shipping_zip rating review_text
                       verified_purchase];
      try (apply Hnone; reflexivity);
      (assert (Hv : v <> Purchase)
         by (intros ->; apply Hc'; cbn; tauto));
      rewrite (Hother Hv); reflexivity.
  - intros Hv. exists addr. conjs; [now apply Hpur | reflexivity..].
  - intros Hv. cbn. rewrite (Hother Hv). auto.
Qed.

End RowClaim.

(** * The claims on concrete runs *)

(** ** Sample runs *)

(** One record without a timestamp among two: one success, one failure,
    and the row of the sound record is committed. *)
Example one_bad_record_among_two :
  let run := @load_json_file lenient "data/events/a.json" 0 (connected two_files) in
  fst run = Ok (1, 1) /\ List.length (w_table (snd run)) = 1.
Proof. split; vm_compute; reflexivity. Qed.

(** A store that keeps [event_id] unique refuses the second copy of an
    event: the refusal is counted and reported, and the first copy is
    committed. *)
Example duplicate_is_counted :
  let run := @load_json_file unique_ids "data/events/dup.json" 0 same_event_twice in
  fst run = Ok (1, 1) /\
  In (MsgInsertError 2 (DatabaseError "Duplicate entry")) (w_out (snd run)) /\
  List.length (w_table (snd run)) = 1.
Proof.
  split; [vm_compute; reflexivity|]. split; [|vm_compute; reflexivity].
  vm_compute. tauto.
Qed.

(** A file that holds a sequence of values that are no objects is loaded
    without error: each value is a failed record. *)
Example numbers_are_failed_records :
  let run := @load_json_file lenient "data/events/numbers.json" 0 numbers_file in
  fst run = Ok (0, 2) /\
  In (MsgInsertError 1 (TypeError "int")) (w_out (snd run)).
Proof. split; [vm_compute; reflexivity | vm_compute; tauto]. Qed.

(** ** Instances *)

(** C5 at [a.json] of [two_files]: two records, two tallied. *)
Lemma load_json_file_tallies_every_record_witness :
  exists success_count error_count w',
    @load_json_file lenient "data/events/a.json" 0 (connected two_files) =
    (Ok (success_count, error_count), w') /\
    success_count + error_count = 2.
Proof.
  exact (@load_json_file_tallies_every_record lenient
           "data/events/a.json" 0 (connected two_files)
           [view1; no_timestamp] eq_refl eq_refl).
Defined.

(** C6 at the same file. *)
Lemma load_json_file_commits_once_at_the_end_witness :
  exists counts w' t,
    @load_json_file lenient "data/events/a.json" 0 (connected two_files) =
    (Ok counts, w') /\
    w_trace w' =
      w_trace (connected two_files) ++
      OpRead "data/events/a.json" :: t ++ [OpCommit 0] /\
    forallb (is_execute_on 0) t = true /\
    List.length t =
      List.length (filter (@buildable lenient) [view1; no_timestamp]) /\
    List.length
      (filter is_commit (OpRead "data/events/a.json" :: t ++ [OpCommit 0])) = 1 /\
    fst counts + snd counts = 2 /\
    w_table w' =
      w_table (connected two_files) ++ pending_of 0 (connected two_files) ++
      accepted_rows t /\
    pending_of 0 w' = [].
Proof.
  exact (@load_json_file_commits_once_at_the_end lenient
           "data/events/a.json" 0 (connected two_files)
           [view1; no_timestamp] eq_refl eq_refl).
Defined.


(** C2, as amended, at [server_down]. *)
Lemma load_all_events_returns_when_server_is_down_witness :
  exists w' t,
    @load_all_events lenient "data/events" server_down = (Ok tt, w') /\
    w_trace w' = w_trace server_down ++ t /\
    t = [OpConnectFailed] /\
    filter is_file_op t = [] /\
    w_out w' =
      w_out server_down ++ heading ++
      [MsgConnectError (OperationalError "Can't connect to MySQL server")] /\
    w_table w' = w_table server_down /\
    w_files w' = w_files server_down.
Proof.
  exact (@load_all_events_returns_when_server_is_down lenient
           "data/events" server_down
           (OperationalError "Can't connect to MySQL server") eq_refl).
Defined.

(** C3, as amended, at [broken_middle]: [b.json] is no JSON. *)
Lemma load_all_events_stops_at_unloadable_file_witness :
  (forall h w0, w_files w0 = w_files broken_middle ->
     fst (@load_json_file lenient (path_join "data/events" "b.json") h w0) =
     Raise (JSONDecodeError "data/events/b.json")) /\
  exists w' t,
    @load_all_events lenient "data/events" broken_middle =
    (Raise (JSONDecodeError "data/events/b.json"), w') /\
    w_trace w' = w_trace broken_middle ++ t /\
    files_read t = map (path_join "data/events") (["a.json"] ++ ["b.json"]) /\
    filter is_commit t = repeat (OpCommit 0) 1.
Proof.
  refine (@load_all_events_stops_at_unloadable_file lenient
            "data/events" broken_middle ["a.json"; "b.json"; "c.json"]
            ["a.json"] ["c.json"] "b.json"
            (JSONDecodeError "data/events/b.json")
            eq_refl eq_refl eq_refl _ eq_refl).
  constructor; [reflexivity | constructor].
Defined.

(** C8, as amended, at [two_files]. *)
Lemma load_all_events_loads_files_in_listing_order_witness :
  exists w' t o,
    @load_all_events lenient "data/events" two_files = (Ok tt, w') /\
    w_trace w' = w_trace two_files ++ t /\
    w_out w' = w_out two_files ++ o /\
    files_read t = ["data/events/b.json"; "data/events/a.json"] /\
    List.length (filter is_complete o) = 2 /\
    (["b.json"; "a.json"] <> [] ->
     In (MsgTotalLoaded (reported_successes o)) o /\
     In (MsgTotalErrors (reported_failures o)) o /\
     In (MsgFilesProcessed 2) o).
Proof.
  refine (@load_all_events_loads_files_in_listing_order lenient
            "data/events" two_files ["b.json"; "a.json"; "notes.txt"]
            eq_refl eq_refl _).
  constructor; [reflexivity | constructor; [reflexivity | constructor]].
Defined.


(** C7, as amended, at a generated purchase. *)
Lemma row_of_conforming_event_witness :
  exists r,
    @insert_values lenient purchase1 = Ok r /\
    (forall c, ~ In (column_field c) (variant_fields Purchase) ->
               column_value c r = PNone) /\
    (Purchase = Purchase ->
     exists addr,
       assoc "shipping_address" (items_of purchase1) = Some (PDict addr) /\
       shipping_city r = get_or_none addr "city" /\
       shipping_state r = get_or_none addr "state" /\
       shipping_zip r = get_or_none addr "zip") /\
    (Purchase <> Purchase ->
     shipping_city r = PNone /\ shipping_state r = PNone /\
     shipping_zip r = PNone).
Proof.
  exact (@row_of_conforming_event lenient Purchase (items_of purchase1)
           "2024-03-09T14:05:59.120034" sample_now eq_refl eq_refl eq_refl).
Defined.

(** ** Where the code departs from the claims as stated *)

(** C2 as stated: with the server down, the run is to fail with a
    connection error that reaches the caller.  On [server_down] the run
    returns normally and raises nothing. *)
Lemma server_down_run_raises_nothing :
  fst (@load_all_events lenient "data/events" server_down) = Ok tt /\
  ~ (exists x, fst (@load_all_events lenient "data/events" server_down) = Raise x).
Proof.
  split.
  - vm_compute. reflexivity.
  - intros (x & H). vm_compute in H. discriminate.
Qed.

(** C3 as stated: after a malformed file, every later file is still to be
    attempted.  On [broken_middle] the run ends with the decode error of
    [b.json]; [c.json], listed after it, is a batch file of the directory
    and is never opened. *)
Lemma file_after_broken_file_is_not_read :
  fst (@load_all_events lenient "data/events" broken_middle) =
    Raise (JSONDecodeError "data/events/b.json") /\
  assoc "data/events" (w_listing broken_middle) =
    Some ["a.json"; "b.json"; "c.json"] /\
  ~ In (OpRead "data/events/c.json")
       (w_trace (snd (@load_all_events lenient "data/events" broken_middle))).
Proof.
  split; [vm_compute; reflexivity|]. split; [reflexivity|].
  vm_compute. intuition discriminate.
Qed.

(** C4 as stated: the connection is to be released on every exit path,
    a fatal error during file processing included.  On [broken_middle]
    the run raises while it holds connection [0], which is still open in
    the world it leaves, no call having closed it. *)
Lemma connection_stays_open_when_a_file_raises :
  is_raise (fst (@load_all_events lenient "data/events" broken_middle)) = true /\
  In (OpConnect 0)
     (w_trace (snd (@load_all_events lenient "data/events" broken_middle))) /\
  conn_is_open 0 (snd (@load_all_events lenient "data/events" broken_middle)) =
    true /\
  filter is_close
    (w_trace (snd (@load_all_events lenient "data/events" broken_middle))) = [].
Proof.
  split; [vm_compute; reflexivity|].
  split; [vm_compute; tauto|].
  split; vm_compute; reflexivity.
Qed.

(** C7 as stated: for every record, a field not defined for the record's
    variant is to be null in the row, and the shipping columns are to be
    null unless [event_type] is [purchase].  The row of
    [view_with_address], a [page_view], has the city of its shipping
    address and its rating. *)
Lemma page_view_row_keeps_address_and_rating :
  exists r,
    @insert_values lenient view_with_address = Ok r /\
    event_type r = PStr "page_view" /\
    ~ In (column_field CShippingCity) (variant_fields PageView) /\
    column_value CShippingCity r = PStr "Lyon" /\
    ~ In (column_field CRating) (variant_fields PageView) /\
    column_value CRating r = PInt 4.
Proof.
  eexists. split; [vm_compute; reflexivity|].
  cbn. repeat split; intuition discriminate.
Qed.

(** C8 as stated: the files are to be loaded in filename order.  On
    [two_files], which the system lists as [b.json], [a.json], the run
    reads [b.json] first, though [a.json] sorts before it. *)
Lemma files_are_read_in_listing_order_not_by_name :
  fst (@load_all_events lenient "data/events" two_files) = Ok tt /\
  files_read (w_trace (snd (@load_all_events lenient "data/events" two_files))) =
    ["data/events/b.json"; "data/events/a.json"] /\
  String.ltb "data/events/a.json" "data/events/b.json" = true.
Proof.
  repeat split; vm_compute; reflexivity.
Qed.

(** * More of the two scripts *)

(** ** The steps of [load_json_file] *)

Section LoaderSteps.
Context {rt : Runtime}.

(** [load_json_file] on a file that holds something iterable: the record
    loop from [header], then the commit, then the closing lines. *)
Lemma load_json_file_steps (path : string) (h : nat) (w : world)
  (v : pyval) (events : list pyval) :
  assoc path (w_files w) = Some (JsonText v) ->
  py_iter v = Ok events ->
  load_json_file path h w =
  match load_events h (List.length events) events 1 0 0
          (header path (List.length events) w) with
  | (Ok counts, w1) =>
      match connection_commit h w1 with
      | (Ok _, w2) => (Ok counts, footer counts w2)
      | (Raise x, w2) => (Raise x, w2)
      end
  | (Raise x, w1) => (Raise x, w1)
  end.
Proof.
  intros Hfile Hiter.
  unfold load_json_file, bind at 1 2 3 4 5.
  unfold print at 1, json_load_path, log, lift, bind. cbn.
  rewrite Hfile, (py_len_iter _ _ Hiter), Hiter.
  unfold print at 1. cbn.
  change (set_out _ (set_trace _ (set_out _ w)))
    with (header path (List.length events) w).
  destruct (load_events h (List.length events) events 1 0 0
              (header path (List.length events) w)) as [[[s f]|x] w1];
    [|reflexivity].
  destruct (connection_commit h w1) as [[[]|x] w2]; [|reflexivity].
  unfold footer, print. cbn [fst snd]. destruct f; reflexivity.
Qed.

(** One statement, with what it leaves pending: a row when it returns,
    none when it raises. *)
Lemma insert_event_outcome (h : nat) (event : pyval) (w : world) :
  exists res w' t,
    insert_event h event w = (res, w') /\
    loop_effect h w w' t [] /\
    List.length (accepted_rows t) = (if is_raise res then 0 else 1) /\
    (conn_is_open h w = false -> is_raise res = true /\ t = []).
Proof.
  rewrite insert_event_unfold.
  destruct (insert_values event) as [r|x].
  2:{ exists (Raise x), w, []. conjs; auto. apply loop_effect_refl. }
  destruct (cursor_execute_effect h r w)
    as (res & w' & t & E & Q & O & T & X & P & A & L).
  exists res, w', t. conjs.
  - exact E.
  - unfold loop_effect. conjs; auto. now rewrite app_nil_r.
  - unfold cursor_execute in E.
    destruct (conn_is_open h w).
    + destruct (store_check (w_table w ++ pending_of h w) r).
      * injection E as <- Ew. rewrite <- Ew in T. cbn in T.
        apply app_inv_head in T. now subst t.
      * injection E as <- Ew. now rewrite A.
    + injection E as <- Ew. rewrite <- Ew in T.
      rewrite <- (app_nil_r (w_trace w)) in T at 1.
      apply app_inv_head in T. now subst t.
  - intros Hc. unfold cursor_execute in E. rewrite Hc in E.
    injection E as <- Ew. split; [reflexivity|].
    rewrite <- Ew in T. rewrite <- (app_nil_r (w_trace w)) in T at 1.
    apply app_inv_head in T. now subst t.
Qed.

Lemma load_event_tally (h total idx : nat) (event : pyval) (s f : nat)
  (w : world) :
  exists s' f' w' t o,
    load_event h total idx event s f w = (Ok (s', f'), w') /\
    loop_effect h w w' t o /\
    s' = s + List.length (accepted_rows t) /\
    f' = f + List.length (filter is_insert_error o) /\
    s' + f' = S (s + f) /\
    (conn_is_open h w = false -> s' = s /\ t = []).
Proof.
  rewrite load_event_unfold.
  destruct (insert_event_outcome h event w) as (res & w1 & t & E & Eff & A & C).
  rewrite E. destruct res as [[]|x]; cbn [is_raise] in A.
  - assert (Hopen : conn_is_open h w = false -> S s = s /\ t = []).
    { intros Hc. destruct (C Hc) as [Hr _]. discriminate. }
    destruct (idx mod 50 =? 0).
    + exists (S s), f, (set_out (w_out w1 ++ [MsgProgress idx total]) w1), t,
        [MsgProgress idx total].
      conjs; try reflexivity; try (cbn; lia); auto.
      now apply (loop_effect_then_print h w w1 t []).
    + exists (S s), f, w1, t, [].
      conjs; try reflexivity; try (cbn; lia); auto.
  - exists s, (S f), (set_out (w_out w1 ++ [MsgInsertError idx x]) w1), t,
      [MsgInsertError idx x].
    conjs; try reflexivity; try (cbn; lia).
    + now apply (loop_effect_then_print h w w1 t []).
    + intros Hc. destruct (C Hc) as [_ ->]. auto.
Qed.

(** The record loop with its accounts: the success count grows by the
    rows left pending, the failure count by the error lines printed. *)
Lemma load_events_tally (h total : nat) (events : list pyval) :
  forall idx s f w,
  exists s' f' w' t o,
    load_events h total events idx s f w = (Ok (s', f'), w') /\
    loop_effect h w w' t o /\
    s' = s + List.length (accepted_rows t) /\
    f' = f + List.length (filter is_insert_error o) /\
    s' + f' = s + f + List.length events /\
    (conn_is_open h w = false -> s' = s /\ t = []).
Proof.
  induction events as [|e rest IH]; intros idx s f w.
  - exists s, f, w, [], [].
    conjs; try reflexivity; try (cbn; lia); auto. apply loop_effect_refl.
  - cbn [load_events]. unfold bind.
    destruct (load_event_tally h total idx e s f w)
      as (s1 & f1 & w1 & t1 & o1 & E1 & Eff1 & S1 & F1 & C1 & Cl1).
    rewrite E1. cbn [fst snd].
    destruct (IH (S idx) s1 f1 w1)
      as (s2 & f2 & w2 & t2 & o2 & E2 & Eff2 & S2 & F2 & C2 & Cl2).
    exists s2, f2, w2, (t1 ++ t2), (o1 ++ o2).
    conjs.
    + exact E2.
    + eapply loop_effect_trans; eauto.
    + rewrite accepted_rows_app, length_app. lia.
    + rewrite filter_app, length_app. lia.
    + cbn [List.length]. lia.
    + intros Hc. destruct (Cl1 Hc) as [-> ->].
      assert (Hc1 : conn_is_open h w1 = false).
      { destruct Eff1 as (Q & _). now rewrite (quiet_open _ _ Q). }
      destruct (Cl2 Hc1) as [-> ->]. auto.
Qed.

End LoaderSteps.

Section LoaderAccounts.
Context {rt : Runtime}.

Lemma connection_commit_closed (h : nat) (w : world) :
  conn_is_open h w = false ->
  connection_commit h w = (Raise (InterfaceError "closed"), w).
Proof. intros H. unfold connection_commit. now rewrite H. Qed.

Lemma footer_effect (counts : nat * nat) (w : world) :
  quiet w (footer counts w) /\
  w_trace (footer counts w) = w_trace w /\
  w_conns (footer counts w) = w_conns w /\
  w_out (footer counts w) =
    w_out w ++ MsgComplete (fst counts) ::
      (if 0 <? snd counts then [MsgWarning (snd counts)] else []).
Proof.
  unfold footer. destruct (0 <? snd counts); cbn; conjs; try reflexivity;
    try (constructor; reflexivity).
  now rewrite <- app_assoc.
Qed.

(** A file that holds something iterable, read through an open
    connection, with all the accounts of the call. *)
Lemma load_json_file_tally (path : string) (h : nat) (w : world)
  (v : pyval) (events : list pyval) :
  assoc path (w_files w) = Some (JsonText v) ->
  py_iter v = Ok events ->
  conn_is_open h w = true ->
  exists s f w' t o,
    load_json_file path h w = (Ok (s, f), w') /\
    steady w w' /\
    w_trace w' = w_trace w ++ OpRead path :: t ++ [OpCommit h] /\
    forallb (is_execute_on h) t = true /\
    w_table w' = w_table w ++ pending_of h w ++ accepted_rows t /\
    List.length (accepted_rows t) = s /\
    pending_of h w' = [] /\
    w_out w' =
      w_out w ++ MsgLoading path :: MsgFound (List.length events) :: o ++
        MsgComplete s :: (if 0 <? f then [MsgWarning f] else []) /\
    forallb is_record_msg o = true /\
    List.length (filter is_insert_error o) = f /\
    s + f = List.length events.
Proof.
  intros Hfile Hiter Hopen.
  rewrite (load_json_file_steps path h w v events Hfile Hiter).
  set (w0 := header path (List.length events) w).
  destruct (load_events_tally h (List.length events) events 1 0 0 w0)
    as (s & f & w1 & t & o & E & (Q & T & X & O & Mo & P) & Sa & Fa & C & _).
  rewrite E.
  assert (Hopen1 : conn_is_open h w1 = true)
    by (rewrite (quiet_open _ _ Q); exact Hopen).
  destruct (connection_commit_open h w1 Hopen1)
    as (w2 & Ec & S2 & O2 & T2 & Tb2 & P2).
  rewrite Ec.
  destruct (footer_effect (s, f) w2) as (Qf & Tf & Cf & Of).
  exists s, f, (footer (s, f) w2), t, o. cbn [fst snd] in Of.
  conjs.
  - reflexivity.
  - apply (steady_trans w w0); [constructor; reflexivity|].
    apply (steady_trans w0 w1); [apply quiet_steady; exact Q|].
    apply (steady_trans w1 w2); [exact S2 | apply quiet_steady; exact Qf].
  - rewrite Tf, T2, T. subst w0. cbn. now rewrite <- !app_assoc.
  - exact X.
  - rewrite (quiet_table _ _ Qf), Tb2, P, (quiet_table _ _ Q). subst w0.
    rewrite <- ?app_assoc. reflexivity.
  - lia.
  - unfold pending_of in *. now rewrite Cf.
  - rewrite Of, O2, O. subst w0. cbn. rewrite <- !app_assoc. reflexivity.
  - exact Mo.
  - lia.
  - lia.
Qed.

(** C1.  For every batch file that holds a sequence of records and every
    record [e] of it, after the records [pre] and before the records
    [post]: if [insert_event] raises [x] on [e] when the loop reaches it
    (the row could not be built, or the store refused it), with [s1]
    successes and [f1] failures counted so far, then [load_json_file]
    returns, so that [x] does not pass it; the failure count it returns
    is [f1], one more for [e], and the failures among [post]; every
    record of [post] is tallied, none is skipped; the line giving the
    index of [e] and [x] is printed, after the lines of [pre] and before
    those of [post]; and the rows accepted before and after [e] are
    committed. *)
Theorem record_failures_stay_in_load_json_file
  (path : string) (h : nat) (w : world) (pre post : list pyval) (e : pyval)
  (s1 f1 : nat) (w1 w2 : world) (x : exn) :
  assoc path (w_files w) = Some (JsonText (PList (pre ++ e :: post))) ->
  conn_is_open h w = true ->
  load_events h (List.length (pre ++ e :: post)) pre 1 0 0
    (header path (List.length (pre ++ e :: post)) w) = (Ok (s1, f1), w1) ->
  insert_event h e w1 = (Raise x, w2) ->
  exists s_post f_post w' o_pre o_post rows,
    load_json_file path h w = (Ok (s1 + s_post, S (f1 + f_post)), w') /\
    s_post + f_post = List.length post /\
    w_out w' =
      w_out w ++
      MsgLoading path :: MsgFound (List.length (pre ++ e :: post)) ::
      o_pre ++ MsgInsertError (S (List.length pre)) x :: o_post ++
      [MsgComplete (s1 + s_post); MsgWarning (S (f1 + f_post))] /\
    forallb is_record_msg o_pre = true /\
    List.length (filter is_insert_error o_pre) = f1 /\
    forallb is_record_msg o_post = true /\
    List.length (filter is_insert_error o_post) = f_post /\
    w_table w' = w_table w ++ pending_of h w ++ rows /\
    List.length rows = s1 + s_post.
Proof.
  intros Hfile Hopen Hpre He.
  rewrite (load_json_file_steps path h w _ _ Hfile eq_refl).
  set (total := List.length (pre ++ e :: post)) in *.
  set (w0 := header path total w) in *.
  rewrite load_events_app, Hpre.
  cbn [load_events]. unfold bind. rewrite load_event_unfold, He.
  cbn [fst snd].
  change (1 + List.length pre) with (S (List.length pre)).
  set (w2d := set_out (w_out w2 ++ [MsgInsertError (S (List.length pre)) x]) w2).
  (* the records before [e] *)
  destruct (load_events_tally h total pre 1 0 0 w0)
    as (s1' & f1' & w1' & t1 & o1 & E1 & (Q1 & T1 & X1 & O1 & M1 & P1)
        & Sa1 & Fa1 & _ & _).
  rewrite Hpre in E1. injection E1 as <- <- <-.
  (* the turn of [e] *)
  destruct (insert_event_outcome h e w1)
    as (res & w2' & t2 & E2 & (Q2 & T2 & X2 & O2 & M2 & P2) & A2 & _).
  rewrite He in E2. injection E2 as <- <-.
  cbn [is_raise] in A2. apply length_zero_iff_nil in A2.
  rewrite A2, app_nil_r in P2. rewrite app_nil_r in O2.
  (* the records after [e] *)
  destruct (load_events_tally h total post (S (S (List.length pre))) s1 (S f1) w2d)
    as (s3 & f3 & w3 & t3 & o3 & E3 & (Q3 & T3 & X3 & O3 & M3 & P3)
        & Sa3 & Fa3 & C3 & _).
  rewrite E3.
  assert (Hopen3 : conn_is_open h w3 = true).
  { rewrite (quiet_open _ _ Q3). change (conn_is_open h w2d) with (conn_is_open h w2).
    rewrite (quiet_open _ _ Q2), (quiet_open _ _ Q1). exact Hopen. }
  destruct (connection_commit_open h w3 Hopen3)
    as (w4 & Ec & S4 & O4 & T4 & Tb4 & P4).
  rewrite Ec.
  destruct (footer_effect (s3, f3) w4) as (Qf & _ & _ & Of).
  cbn [fst snd] in Of.
  exists (List.length (accepted_rows t3)),
    (List.length (filter is_insert_error o3)),
    (footer (s3, f3) w4), o1, o3, (accepted_rows t1 ++ accepted_rows t3).
  assert (Hs3 : s3 = s1 + List.length (accepted_rows t3)) by exact Sa3.
  assert (Hf3 : f3 = S (f1 + List.length (filter is_insert_error o3)))
    by (rewrite Fa3; reflexivity).
  conjs.
  - now rewrite <- Hs3, <- Hf3.
  - lia.
  - rewrite Of, O4, O3.
    change (w_out w2d)
      with (w_out w2 ++ [MsgInsertError (S (List.length pre)) x]).
    rewrite O2, O1. subst w0. cbn [header w_out set_out set_trace].
    rewrite Hf3 at 1. cbn [Nat.ltb Nat.leb].
    rewrite <- Hs3, <- Hf3, <- !app_assoc. reflexivity.
  - exact M1.
  - cbn in Fa1. now rewrite Fa1.
  - exact M3.
  - reflexivity.
  - rewrite (quiet_table _ _ Qf), Tb4, P3, (quiet_table _ _ Q3).
    change (w_table w2d) with (w_table w2).
    change (pending_of h w2d) with (pending_of h w2).
    rewrite P2, P1, (quiet_table _ _ Q2), (quiet_table _ _ Q1).
    subst w0. cbn [header w_table set_out set_trace].
    change (pending_of h (header path total w)) with (pending_of h w).
    now rewrite <- !app_assoc.
  - rewrite length_app. cbn in Sa1. lia.
Qed.

Lemma record_msgs_filter_complete (o : list msg) :
  forallb is_record_msg o = true ->
  reported_successes o = 0 /\ reported_failures o = 0 /\
  filter is_complete o = [].
Proof.
  induction o as [|m o IH]; [auto|].
  cbn [forallb]. intros H. apply andb_prop in H. destruct H as [Hm Ho].
  destruct (IH Ho) as (A & B & C).
  destruct m; try discriminate; cbn; auto.
Qed.

(** X1.  The success count [load_json_file] returns is the number of rows
    its commit adds to the table, beyond those already pending on the
    connection; no row stays pending. *)
Theorem success_count_is_rows_committed
  (path : string) (h : nat) (w : world) (v : pyval) (events : list pyval) :
  assoc path (w_files w) = Some (JsonText v) ->
  py_iter v = Ok events ->
  conn_is_open h w = true ->
  exists success_count error_count w' rows,
    load_json_file path h w = (Ok (success_count, error_count), w') /\
    w_table w' = w_table w ++ pending_of h w ++ rows /\
    List.length rows = success_count /\
    pending_of h w' = [].
Proof.
  intros Hfile Hiter Hopen.
  destruct (load_json_file_tally path h w v events Hfile Hiter Hopen)
    as (s & f & w' & t & o & E & _ & _ & _ & Tb & L & P & _).
  exists s, f, w', (accepted_rows t). auto.
Qed.

(** X2.  The failure count [load_json_file] returns is the number of
    error lines it prints: between the line that gives the number of
    records and the completion line there are only progress and error
    lines, one error line for each failure. *)
Theorem error_count_is_error_lines_printed
  (path : string) (h : nat) (w : world) (v : pyval) (events : list pyval) :
  assoc path (w_files w) = Some (JsonText v) ->
  py_iter v = Ok events ->
  conn_is_open h w = true ->
  exists success_count error_count w' o,
    load_json_file path h w = (Ok (success_count, error_count), w') /\
    w_out w' =
      w_out w ++ MsgLoading path :: MsgFound (List.length events) :: o ++
        MsgComplete success_count ::
        (if 0 <? error_count then [MsgWarning error_count] else []) /\
    forallb is_record_msg o = true /\
    List.length (filter is_insert_error o) = error_count.
Proof.
  intros Hfile Hiter Hopen.
  destruct (load_json_file_tally path h w v events Hfile Hiter Hopen)
    as (s & f & w' & t & o & E & _ & _ & _ & _ & _ & _ & O & Mo & F & _).
  exists s, f, w', o. auto.
Qed.

(** X3.  Through a connection that is closed, [load_json_file] on a file
    that holds a sequence sends no statement: every record is counted and
    reported as a failure, and the call then raises at its commit, with
    the table as it was. *)
Theorem closed_connection_fails_at_commit
  (path : string) (h : nat) (w : world) (v : pyval) (events : list pyval) :
  assoc path (w_files w) = Some (JsonText v) ->
  py_iter v = Ok events ->
  conn_is_open h w = false ->
  exists w' o,
    load_json_file path h w = (Raise (InterfaceError "closed"), w') /\
    w_trace w' = w_trace w ++ [OpRead path] /\
    w_table w' = w_table w /\
    w_out w' =
      w_out w ++ MsgLoading path :: MsgFound (List.length events) :: o /\
    List.length (filter is_insert_error o) = List.length events.
Proof.
  intros Hfile Hiter Hclosed.
  rewrite (load_json_file_steps path h w v events Hfile Hiter).
  set (w0 := header path (List.length events) w).
  destruct (load_events_tally h (List.length events) events 1 0 0 w0)
    as (s & f & w1 & t & o & E & (Q & T & X & O & Mo & P) & Sa & Fa & C & Cl).
  rewrite E.
  destruct (Cl Hclosed) as [-> ->].
  assert (Hc1 : conn_is_open h w1 = false)
    by (rewrite (quiet_open _ _ Q); exact Hclosed).
  rewrite (connection_commit_closed h w1 Hc1).
  exists w1, o. conjs.
  - reflexivity.
  - rewrite T. subst w0. cbn. now rewrite app_nil_r.
  - now rewrite (quiet_table _ _ Q).
  - rewrite O. subst w0. cbn. now rewrite <- !app_assoc.
  - lia.
Qed.

(** X4.  A file that is missing, is not JSON, or holds a JSON value with
    no length makes [load_json_file] raise after it has announced the
    file and tried to read it: no database call is made, and the table
    and the connections are as they were. *)
Theorem unloadable_file_makes_no_database_call
  (path : string) (h : nat) (w : world) :
  match assoc path (w_files w) with
  | Some (JsonText (PList _ | PDict _ | PStr _)) => False
  | _ => True
  end ->
  exists x w',
    load_json_file path h w = (Raise x, w') /\
    x = match assoc path (w_files w) with
        | None => FileNotFoundError path
        | Some (BadText _) => JSONDecodeError path
        | Some (JsonText v) => TypeError (type_name v)
        end /\
    w_trace w' = w_trace w ++ [OpRead path] /\
    w_out w' = w_out w ++ [MsgLoading path] /\
    w_table w' = w_table w /\
    w_conns w' = w_conns w.
Proof.
  intros H.
  assert (Herr : file_error path w =
                 Some match assoc path (w_files w) with
                      | None => FileNotFoundError path
                      | Some (BadText _) => JSONDecodeError path
                      | Some (JsonText v) => TypeError (type_name v)
                      end).
  { unfold file_error. destruct (assoc path (w_files w)) as [[v|raw]|];
      try reflexivity. destruct v; try reflexivity; contradiction. }
  eexists _, _. split; [exact (load_json_file_raises path h w _ Herr)|].
  conjs; reflexivity.
Qed.

End LoaderAccounts.

Section RecordEdges.
Context {rt : Runtime}.

Lemma load_events_none_buildable (h total : nat) (events : list pyval) :
  Forall (fun e => buildable e = false) events ->
  forall idx s f w,
  exists w',
    load_events h total events idx s f w =
    (Ok (s, f + List.length events), w') /\
    w_trace w' = w_trace w /\ quiet w w' /\ w_conns w' = w_conns w.
Proof.
  intros Hall. induction Hall as [|e rest He _ IH]; intros idx s f w.
  - exists w. cbn. rewrite Nat.add_0_r. conjs; auto. apply quiet_refl.
  - cbn [load_events]. unfold bind.
    rewrite load_event_unfold, insert_event_unfold.
    unfold buildable in He.
    destruct (insert_values e) as [r|x]; [discriminate|].
    cbn [fst snd].
    destruct (IH (S idx) s (S f) (set_out (w_out w ++ [MsgInsertError idx x]) w))
      as (w' & E & T & Q & C).
    exists w'. conjs.
    + rewrite E. cbn [List.length]. do 2 f_equal. f_equal. lia.
    + exact T.
    + eapply quiet_trans; [apply quiet_set_out | exact Q].
    + exact C.
Qed.

(** X5.  A file whose top-level value is iterable but holds no object
    (an array of numbers, a string, or an object, which is iterated by
    its keys) is not rejected: [load_json_file] counts every item as a
    failed record, sends no statement, commits, and returns. *)
Theorem items_that_are_no_objects_all_fail
  (path : string) (h : nat) (w : world) (v : pyval) (events : list pyval) :
  assoc path (w_files w) = Some (JsonText v) ->
  py_iter v = Ok events ->
  conn_is_open h w = true ->
  Forall (fun e => match e with PDict _ => False | _ => True end) events ->
  exists w',
    load_json_file path h w = (Ok (0, List.length events), w') /\
    w_trace w' = w_trace w ++ [OpRead path; OpCommit h] /\
    w_table w' = w_table w ++ pending_of h w.
Proof.
  intros Hfile Hiter Hopen Hall.
  rewrite (load_json_file_steps path h w v events Hfile Hiter).
  set (w0 := header path (List.length events) w).
  assert (Hnb : Forall (fun e => buildable e = false) events).
  { eapply Forall_impl; [|exact Hall]. intros e He. unfold buildable, insert_values.
    destruct e; try reflexivity. contradiction. }
  destruct (load_events_none_buildable h (List.length events) events Hnb 1 0 0 w0)
    as (w1 & E & T & Q & C).
  rewrite E.
  assert (Hopen1 : conn_is_open h w1 = true)
    by (rewrite (quiet_open _ _ Q); exact Hopen).
  destruct (connection_commit_open h w1 Hopen1)
    as (w2 & Ec & S2 & O2 & T2 & Tb2 & P2).
  rewrite Ec.
  destruct (footer_effect (0, 0 + List.length events) w2) as (Qf & Tf & Cf & Of).
  exists (footer (0, 0 + List.length events) w2). conjs.
  - reflexivity.
  - rewrite Tf, T2, T. subst w0. cbn. now rewrite <- !app_assoc.
  - rewrite (quiet_table _ _ Qf), Tb2, (quiet_table _ _ Q).
    unfold pending_of. rewrite C. reflexivity.
Qed.

(** X6.  A record whose timestamp parses but whose [shipping_address] is
    present and is no object (null, a string, a number, a list) makes
    [insert_event] raise [AttributeError] before any statement is
    sent. *)
Theorem shipping_address_that_is_no_object_fails_the_record
  (items : list (string * pyval)) (t : string) (d : datetime) (x : pyval)
  (h : nat) (w : world) :
  assoc "timestamp" items = Some (PStr t) ->
  fromisoformat t = Some d ->
  assoc "shipping_address" items = Some x ->
  match x with PDict _ => False | _ => True end ->
  insert_event h (PDict items) w = (Raise (AttributeError (type_name x)), w).
Proof.
  intros Hts Hd Hs Hx.
  rewrite insert_event_unfold.
  assert (Hv : insert_values (PDict items) = Raise (AttributeError (type_name x))).
  { unfold insert_values. cbn [py_getitem]. rewrite Hts.
    cbn [rbind datetime_fromisoformat]. rewrite Hd. cbn [rbind py_get_default].
    rewrite Hs. cbn [rbind].
    assert (Hg : forall k, py_get (PDict items) k = Ok (get_or_none items k)).
    { intros k. unfold py_get, get_or_none. now destruct (assoc k items). }
    rewrite !Hg. cbn [rbind].
    destruct x; try reflexivity. contradiction. }
  now rewrite Hv.
Qed.

End RecordEdges.

(** ** The steps of [load_all_events] *)

Section RunSteps.
Context {rt : Runtime}.

(** [load_with_connection] on a directory that can be listed. *)
Lemma load_with_connection_steps (events_dir : string) (h : nat) (w : world)
  (names : list string) :
  assoc events_dir (w_listing w) = Some names ->
  load_with_connection events_dir h w =
  match filter (fun f => str_endswith f ".json") names with
  | [] =>
      let w1 := set_trace (w_trace w ++ [OpListdir events_dir]) w in
      match connection_close h (set_out (w_out w1 ++ [MsgNoFiles events_dir]) w1) with
      | (Ok _, w') => (Ok tt, w')
      | (Raise x, w') => (Raise x, w')
      end
  | json_files =>
      match load_files events_dir h json_files 0 0
              (announced events_dir (List.length json_files) w) with
      | (Ok totals, w3) =>
          match connection_close h w3 with
          | (Ok _, w4) =>
              (Ok tt,
               set_out (w_out w4 ++ summary totals (List.length json_files)) w4)
          | (Raise x, w4) => (Raise x, w4)
          end
      | (Raise x, w3) => (Raise x, w3)
      end
  end.
Proof.
  intros Hdir. unfold load_with_connection.
  unfold bind at 1. unfold os_listdir, bind at 1, log. cbn [fst snd].
  change (w_listing (set_trace (w_trace w ++ [OpListdir events_dir]) w))
    with (w_listing w).
  rewrite Hdir.
  destruct (filter (fun f => str_endswith f ".json") names) as [|name rest].
  - unfold bind, print. cbn [fst snd].
    destruct (connection_close h _) as [[[]|x] w']; reflexivity.
  - unfold bind at 1. unfold print at 1. cbn [fst snd].
    change (set_out _ (set_trace (w_trace w ++ [OpListdir events_dir]) w))
      with (announced events_dir (List.length (name :: rest)) w).
    unfold bind at 1.
    destruct (load_files events_dir h (name :: rest) 0 0 _) as [[totals|x] w3];
      [|reflexivity].
    unfold bind at 1.
    destruct (connection_close h w3) as [[[]|x] w4]; [|reflexivity].
    unfold bind, print, summary. cbn. rewrite <- !app_assoc. reflexivity.
Qed.

(** The file loop over loadable files, started with nothing pending:
    the totals grow by the rows added to the table and by the error
    lines printed. *)
Lemma load_files_tally (dir : string) (h : nat) (names : list string) :
  forall ts te w,
    conn_is_open h w = true ->
    pending_of h w = [] ->
    Forall (fun name => file_error (path_join dir name) w = None) names ->
    exists ts' te' w' rows o,
      load_files dir h names ts te w = (Ok (ts', te'), w') /\
      steady w w' /\
      w_table w' = w_table w ++ rows /\
      ts' = ts + List.length rows /\
      pending_of h w' = [] /\
      w_out w' = w_out w ++ o /\
      te' = te + List.length (filter is_insert_error o) /\
      ts' = ts + reported_successes o /\
      te' = te + reported_failures o.
Proof.
  induction names as [|name rest IH]; intros ts te w Hopen Hpend Hall.
  - exists ts, te, w, [], [].
    conjs; try reflexivity; try (now rewrite app_nil_r); try (cbn; lia);
      try assumption.
    apply steady_refl.
  - inversion Hall as [|? ? Hname Hrest]; subst.
    destruct (file_error_none _ _ Hname) as (v & events & Hfile & Hiter).
    destruct (load_json_file_tally _ h w v events Hfile Hiter Hopen)
      as (s & f & w1 & t1 & o1 & E1 & S1 & T1 & X1 & Tb1 & L1 & P1 & O1 & M1 & F1 & C1).
    cbn [load_files]. unfold bind. rewrite E1. cbn [fst snd].
    assert (Hopen1 : conn_is_open h w1 = true)
      by (rewrite (steady_open _ _ S1); exact Hopen).
    assert (Hrest1 : Forall (fun name => file_error (path_join dir name) w1 = None) rest).
    { eapply Forall_impl; [|exact Hrest]. cbn. intros a Ha.
      now rewrite (file_error_steady _ _ _ S1). }
    destruct (IH (ts + s) (te + f) w1 Hopen1 P1 Hrest1)
      as (ts' & te' & w2 & rows & o2 & E2 & S2 & Tb2 & Ts & P2 & O2 & Te & Rs & Rf).
    destruct (record_msgs_filter_complete o1 M1) as (R1 & R2 & _).
    eexists ts', te', w2, (accepted_rows t1 ++ rows), _.
    conjs.
    + exact E2.
    + eapply steady_trans; eauto.
    + rewrite Tb2, Tb1, Hpend. cbn [app]. now rewrite <- app_assoc.
    + rewrite length_app. lia.
    + exact P2.
    + rewrite O2, O1, <- app_assoc. reflexivity.
    + rewrite Te. cbn [filter is_insert_error].
      destruct (0 <? f); rewrite filter_app, length_app;
        cbn [filter is_insert_error]; rewrite filter_app, length_app; cbn; lia.
    + rewrite Rs, reported_successes_app. cbn [reported_successes].
      rewrite reported_successes_app, R1.
      cbn [reported_successes]. destruct (0 <? f); cbn; lia.
    + rewrite Rf, reported_failures_app. cbn [reported_failures].
      rewrite reported_failures_app, R2.
      cbn [reported_failures].
      destruct (0 <? f) eqn:Ef; cbn; [lia|]. apply Nat.ltb_ge in Ef. lia.
Qed.

Lemma greeted_facts (w : world) :
  pending_of (List.length (w_conns w)) (greeted w) = [] /\
  w_table (greeted w) = w_table w /\
  w_files (greeted w) = w_files w /\
  w_listing (greeted w) = w_listing w /\
  w_trace (greeted w) = w_trace w ++ [OpConnect (List.length (w_conns w))] /\
  w_out (greeted w) = w_out w ++ heading ++ [MsgConnected].
Proof.
  unfold greeted, connected, pending_of. cbn.
  rewrite nth_error_app2 by lia. rewrite Nat.sub_diag. cbn.
  conjs; try reflexivity. now rewrite <- app_assoc.
Qed.

(** X7.  With the server reachable and every batch file of the directory
    loadable, the rows [load_all_events] adds to the table are as many as
    the total it prints as loaded, and the total it prints as errors is
    the number of error lines of the run; the rows the table held
    before are still there, in front. *)
Theorem totals_printed_match_table_and_error_lines
  (events_dir : string) (w : world) (names : list string) :
  w_connect_error w = None ->
  assoc events_dir (w_listing w) = Some names ->
  filter (fun f => str_endswith f ".json") names <> [] ->
  Forall (fun name => file_error (path_join events_dir name) w = None)
    (filter (fun f => str_endswith f ".json") names) ->
  exists w' rows o,
    load_all_events events_dir w = (Ok tt, w') /\
    w_table w' = w_table w ++ rows /\
    w_out w' = w_out w ++ o /\
    In (MsgTotalLoaded (List.length rows)) o /\
    In (MsgTotalErrors (List.length (filter is_insert_error o))) o.
Proof.
  intros Hup Hdir Hne Hall.
  rewrite (load_all_events_up events_dir w Hup).
  destruct (greeted_facts w) as (Gp & Gt & Gf & Gl & Gtr & Go).
  set (h := List.length (w_conns w)) in *.
  rewrite (load_with_connection_steps events_dir h (greeted w) names)
    by (rewrite Gl; exact Hdir).
  destruct (filter (fun f => str_endswith f ".json") names) as [|name rest] eqn:Hj;
    [now contradiction Hne|].
  cbv zeta.
  set (n := List.length (name :: rest)).
  set (w2 := announced events_dir n (greeted w)).
  assert (Hopen2 : conn_is_open h w2 = true) by apply (greeted_open w).
  assert (Hp2 : pending_of h w2 = []) by exact Gp.
  assert (Hall2 : Forall (fun a => file_error (path_join events_dir a) w2 = None)
                    (name :: rest)).
  { eapply Forall_impl; [|exact Hall]. cbn. intros a Ha. rewrite <- Ha.
    apply file_error_same_files. exact Gf. }
  destruct (load_files_tally events_dir h (name :: rest) 0 0 w2 Hopen2 Hp2 Hall2)
    as (ts & te & w3 & rows & o & E & S & Tb & Ts & P & O & Te & _).
  rewrite E.
  assert (Hopen3 : conn_is_open h w3 = true)
    by (rewrite (steady_open _ _ S); exact Hopen2).
  destruct (connection_close_open h w3 Hopen3)
    as (w4 & Ec & _ & _ & Tb4 & O4 & _).
  rewrite Ec.
  exists (set_out (w_out w4 ++ summary (ts, te) n) w4), rows,
    (heading ++ MsgConnected :: MsgFoundFiles n :: o ++ summary (ts, te) n).
  conjs.
  - reflexivity.
  - cbn [w_table set_out]. rewrite Tb4, Tb. reflexivity.
  - cbn [w_out set_out]. rewrite O4, O.
    change (w_out w2) with (w_out (greeted w) ++ [MsgFoundFiles n]).
    rewrite Go. rewrite <- !app_assoc. reflexivity.
  - apply in_or_app. right. right. right. apply in_or_app. right.
    cbn in Ts. subst ts. cbn. tauto.
  - apply in_or_app. right. right. right. apply in_or_app. right.
    assert (Hc : List.length
                   (filter is_insert_error
                      (heading ++ MsgConnected :: MsgFoundFiles n :: o ++
                       summary (ts, te) n)) = te).
    { cbn [heading app filter is_insert_error]. rewrite filter_app, length_app.
      cbn. cbn in Te. lia. }
    rewrite Hc. cbn. tauto.
Qed.

End RunSteps.

Section RunEdges.
Context {rt : Runtime}.

(** X8.  When the directory lists no name that ends in [.json],
    [load_all_events] prints the warning, closes the connection it made
    and returns: no file is read, no summary is printed, and the table is
    as it was. *)
Theorem directory_without_batch_files_gets_a_warning
  (events_dir : string) (w : world) (names : list string) :
  w_connect_error w = None ->
  assoc events_dir (w_listing w) = Some names ->
  filter (fun f => str_endswith f ".json") names = [] ->
  exists w',
    load_all_events events_dir w = (Ok tt, w') /\
    w_out w' = w_out w ++ heading ++ [MsgConnected; MsgNoFiles events_dir] /\
    w_trace w' =
      w_trace w ++
      [OpConnect (List.length (w_conns w)); OpListdir events_dir;
       OpClose (List.length (w_conns w))] /\
    w_table w' = w_table w /\
    conn_is_open (List.length (w_conns w)) w' = false.
Proof.
  intros Hup Hdir Hj.
  rewrite (load_all_events_up events_dir w Hup).
  destruct (greeted_facts w) as (Gp & Gt & Gf & Gl & Gtr & Go).
  set (h := List.length (w_conns w)) in *.
  rewrite (load_with_connection_steps events_dir h (greeted w) names)
    by (rewrite Gl; exact Hdir).
  rewrite Hj. cbv zeta.
  set (w2 := set_out _ _).
  assert (Hopen2 : conn_is_open h w2 = true) by apply (greeted_open w).
  destruct (connection_close_open h w2 Hopen2)
    as (w3 & Ec & _ & _ & Tb & O & T & Cl).
  rewrite Ec. exists w3. conjs.
  - reflexivity.
  - rewrite O.
    change (w_out w2) with (w_out (greeted w) ++ [MsgNoFiles events_dir]).
    rewrite Go. now rewrite <- !app_assoc.
  - rewrite T.
    change (w_trace w2) with (w_trace (greeted w) ++ [OpListdir events_dir]).
    rewrite Gtr. now rewrite <- !app_assoc.
  - rewrite Tb. exact Gt.
  - exact Cl.
Qed.

(** X9.  When the directory cannot be listed, [load_all_events] raises
    the listing's error after it has connected: the connection it made is
    left open, and nothing else was done. *)
Theorem missing_directory_raises_with_connection_open
  (events_dir : string) (w : world) :
  w_connect_error w = None ->
  assoc events_dir (w_listing w) = None ->
  exists w',
    load_all_events events_dir w = (Raise (FileNotFoundError events_dir), w') /\
    w_trace w' =
      w_trace w ++ [OpConnect (List.length (w_conns w)); OpListdir events_dir] /\
    conn_is_open (List.length (w_conns w)) w' = true /\
    w_table w' = w_table w /\
    w_out w' = w_out w ++ heading ++ [MsgConnected].
Proof.
  intros Hup Hdir.
  rewrite (load_all_events_up events_dir w Hup).
  destruct (greeted_facts w) as (Gp & Gt & Gf & Gl & Gtr & Go).
  unfold load_with_connection.
  unfold bind at 1. unfold os_listdir, bind at 1, log. cbn [fst snd].
  change (w_listing (set_trace (w_trace (greeted w) ++ [OpListdir events_dir])
                       (greeted w)))
    with (w_listing (greeted w)).
  rewrite Gl, Hdir.
  eexists. split; [reflexivity|]. conjs.
  - cbn [w_trace set_trace]. rewrite Gtr. now rewrite <- app_assoc.
  - apply (greeted_open w).
  - exact Gt.
  - exact Go.
Qed.

(** Whatever the file and the connection, [load_json_file] only adds
    rows to the table, and leaves the file system alone. *)
Lemma load_json_file_grows (path : string) (h : nat) (w : world) :
  exists r w' rows,
    load_json_file path h w = (r, w') /\
    steady w w' /\
    w_table w' = w_table w ++ rows.
Proof.
  destruct (file_error path w) as [x|] eqn:Herr.
  - rewrite (load_json_file_raises path h w x Herr).
    eexists _, _, []. conjs; [reflexivity | constructor; reflexivity |].
    cbn. now rewrite app_nil_r.
  - destruct (file_error_none _ _ Herr) as (v & events & Hfile & Hiter).
    rewrite (load_json_file_steps path h w v events Hfile Hiter).
    set (w0 := header path (List.length events) w).
    destruct (load_events_tally h (List.length events) events 1 0 0 w0)
      as (s & f & w1 & t & o & E & (Q & _) & _).
    rewrite E.
    assert (S01 : steady w w1).
    { apply (steady_trans w w0); [constructor; reflexivity|].
      apply quiet_steady; exact Q. }
    destruct (conn_is_open h w1) eqn:Hopen1.
    + destruct (connection_commit_open h w1 Hopen1)
        as (w2 & Ec & S2 & _ & _ & Tb2 & _).
      rewrite Ec.
      destruct (footer_effect (s, f) w2) as (Qf & _).
      exists (Ok (s, f)), (footer (s, f) w2), (pending_of h w1). conjs.
      * reflexivity.
      * apply (steady_trans w w1); [exact S01|].
        apply (steady_trans w1 w2); [exact S2 | apply quiet_steady; exact Qf].
      * rewrite (quiet_table _ _ Qf), Tb2, (quiet_table _ _ Q). reflexivity.
    + rewrite (connection_commit_closed h w1 Hopen1).
      exists (Raise (InterfaceError "closed")), w1, []. conjs.
      * reflexivity.
      * exact S01.
      * rewrite (quiet_table _ _ Q). subst w0. cbn. now rewrite app_nil_r.
Qed.

Lemma load_files_grows (dir : string) (h : nat) (names : list string) :
  forall ts te w,
  exists r w' rows,
    load_files dir h names ts te w = (r, w') /\
    steady w w' /\
    w_table w' = w_table w ++ rows.
Proof.
  induction names as [|name rest IH]; intros ts te w.
  - exists (Ok (ts, te)), w, []. conjs; [reflexivity | apply steady_refl |].
    now rewrite app_nil_r.
  - cbn [load_files]. unfold bind.
    destruct (load_json_file_grows (path_join dir name) h w)
      as (r & w1 & rows1 & E1 & S1 & Tb1).
    rewrite E1. destruct r as [counts|x].
    + destruct (IH (ts + fst counts) (te + snd counts) w1)
        as (r2 & w2 & rows2 & E2 & S2 & Tb2).
      exists r2, w2, (rows1 ++ rows2). conjs.
      * exact E2.
      * eapply steady_trans; eauto.
      * rewrite Tb2, Tb1. now rewrite <- app_assoc.
    + exists (Raise x), w1, rows1. auto.
Qed.

Lemma connection_close_any (h : nat) (w : world) :
  exists r w',
    connection_close h w = (r, w') /\
    w_table w' = w_table w /\ w_files w' = w_files w /\
    w_listing w' = w_listing w.
Proof.
  unfold connection_close. destruct (conn_is_open h w);
    eexists _, _; conjs; reflexivity.
Qed.

(** X10.  Whatever the world and the directory, and however the run
    ends, [load_all_events] leaves the files and the directory listings
    as they were, and the rows the table held are still there, in
    front of whatever the run committed. *)
Theorem load_all_events_only_adds_rows
  (events_dir : string) (w : world) :
  exists r w' rows,
    load_all_events events_dir w = (r, w') /\
    w_table w' = w_table w ++ rows /\
    w_files w' = w_files w /\
    w_listing w' = w_listing w.
Proof.
  destruct (w_connect_error w) as [e|] eqn:Hc.
  - unfold load_all_events.
    unfold bind at 1 2 3 4. unfold print at 1 2 3. cbn [fst snd].
    rewrite get_db_connection_down with (e := e) by exact Hc.
    eexists _, _, []. conjs; try reflexivity. cbn. now rewrite app_nil_r.
  - rewrite (load_all_events_up events_dir w Hc).
    destruct (greeted_facts w) as (Gp & Gt & Gf & Gl & Gtr & Go).
    set (h := List.length (w_conns w)) in *.
    destruct (assoc events_dir (w_listing w)) as [names|] eqn:Hdir.
    2:{ unfold load_with_connection.
        unfold bind at 1. unfold os_listdir, bind at 1, log. cbn [fst snd].
        change (w_listing (set_trace (w_trace (greeted w) ++ [OpListdir events_dir])
                             (greeted w)))
          with (w_listing (greeted w)).
        rewrite Gl, Hdir.
        eexists _, _, []. conjs; [reflexivity | | exact Gf | exact Gl].
        cbn [w_table set_trace]. rewrite Gt. now rewrite app_nil_r. }
    rewrite (load_with_connection_steps events_dir h (greeted w) names)
      by (rewrite Gl; exact Hdir).
    destruct (filter (fun f => str_endswith f ".json") names) as [|name rest].
    + cbv zeta. set (w2 := set_out _ _).
      destruct (connection_close_any h w2) as (r & w3 & Ec & Tb & F & L).
      rewrite Ec.
      exists (match r with Ok _ => Ok tt | Raise x => Raise x end), w3, [].
      conjs.
      * destruct r as [[]|x]; reflexivity.
      * rewrite Tb, app_nil_r. exact Gt.
      * rewrite F. exact Gf.
      * rewrite L. exact Gl.
    + cbv zeta.
      set (w2 := announced events_dir (List.length (name :: rest)) (greeted w)).
      destruct (load_files_grows events_dir h (name :: rest) 0 0 w2)
        as (r & w3 & rows & E & S & Tb).
      rewrite E. destruct r as [totals|x].
      * destruct (connection_close_any h w3) as (r & w4 & Ec & Tb4 & F4 & L4).
        rewrite Ec. destruct r as [[]|x].
        -- eexists _, _, rows. conjs; [reflexivity | | |].
           ++ cbn [w_table set_out]. rewrite Tb4, Tb. subst w2. cbn [announced w_table set_out set_trace].
              now rewrite Gt.
           ++ cbn [w_files set_out]. rewrite F4, (steady_files _ _ S). exact Gf.
           ++ cbn [w_listing set_out]. rewrite L4, (steady_listing _ _ S). exact Gl.
        -- eexists _, _, rows. conjs; [reflexivity | | |].
           ++ rewrite Tb4, Tb. subst w2. cbn [announced w_table set_out set_trace].
              now rewrite Gt.
           ++ rewrite F4, (steady_files _ _ S). exact Gf.
           ++ rewrite L4, (steady_listing _ _ S). exact Gl.
      * eexists _, _, rows. conjs; [reflexivity | | |].
        -- rewrite Tb. subst w2. cbn [announced w_table set_out set_trace].
           now rewrite Gt.
        -- rewrite (steady_files _ _ S). exact Gf.
        -- rewrite (steady_listing _ _ S). exact Gl.
Qed.

End RunEdges.

(** ** The generator *)

Lemma randint_range (lo hi x : Z) :
  (lo <= hi)%Z -> (lo <= randint lo hi x <= hi)%Z.
Proof.
  intros H. unfold randint.
  pose proof (Z.mod_pos_bound x (hi - lo + 1)) as B. lia.
Qed.

Lemma choice_In (l : list string) (i : nat) : l <> [] -> In (choice l i) l.
Proof.
  intros H. unfold choice. apply nth_In.
  apply Nat.mod_upper_bound. destruct l; [contradiction | discriminate].
Qed.









(** ** Saving *)






(** ** The generator's [main] *)

Section GeneratorMain.
Context {rt : Runtime}.








End GeneratorMain.

(** ** Generated events *)

Section GeneratedEvents.
Context {rt : Runtime}.

(** X15.  Every event the four generators build fits its variant: its
    keys are the common fields and those of the variant (each of its
    keys is one of them, and each of them is a key), its [user_id]
    is between 1000 and 9999, and the fields drawn from a range or from a
    list are within them: device and browser of a page view; product
    (100 to 999) and quantity (1 to 3) of an addition to a cart; number
    of items (1 to 5) and payment method of a purchase; product and
    rating (1 to 5) of a review. *)
Theorem generated_events_fit_their_variant (event : pyval) :
  generated event ->
  exists v items,
    event = PDict items /\
    conforms v items = true /\
    forallb (fun k => mem k (keys items)) (common_fields ++ variant_fields v)
      = true /\
    int_field_in items "user_id" 1000 9999 /\
    match v with
    | PageView =>
        str_field_among items "device" ["mobile"; "desktop"; "tablet"] /\
        str_field_among items "browser" ["Chrome"; "Firefox"; "Safari"; "Edge"]
    | AddToCart =>
        int_field_in items "product_id" 100 999 /\
        int_field_in items "quantity" 1 3
    | Purchase =>
        int_field_in items "items_count" 1 5 /\
        str_field_among items "payment_method"
          ["credit_card"; "paypal"; "debit_card"; "apple_pay"]
    | ProductReview =>
        int_field_in items "product_id" 100 999 /\
        int_field_in items "rating" 1 5
    end.
Proof.
  intros G.
  destruct G as [? ? ? now ? ? ? ? V|? ? ? now ? ? ? ? V
                |? ? ? ? ? now ? ? ? ? V|? ? ? now ? ? ? V].
  - exists PageView. eexists. split; [reflexivity|].
    conjs; try reflexivity.
    + eexists. split; [reflexivity|]. apply randint_range. lia.
    + eexists. split; [reflexivity|]. apply choice_In. discriminate.
    + eexists. split; [reflexivity|]. apply choice_In. discriminate.
  - exists AddToCart. eexists. split; [reflexivity|].
    conjs; try reflexivity;
      (eexists; split; [reflexivity|]; apply randint_range; lia).
  - exists Purchase. eexists. split; [reflexivity|].
    conjs; try reflexivity.
    + eexists. split; [reflexivity|]. apply randint_range. lia.
    + eexists. split; [reflexivity|]. apply randint_range. lia.
    + eexists. split; [reflexivity|]. apply choice_In. discriminate.
  - exists ProductReview. eexists. split; [reflexivity|].
    conjs; try reflexivity;
      (eexists; split; [reflexivity|]; apply randint_range; lia).
Qed.

(** The columns of the row [insert_values_dict] describes. *)
Lemma row_columns (items addr : list (string * pyval)) (d : datetime)
  (c : column) :
  column_value c
    (mkRow (get_or_none items "event_id") (get_or_none items "event_type")
       (get_or_none items "user_id") (get_or_none items "session_id") d
       (get_or_none items "page_url") (get_or_none items "device")
       (get_or_none items "browser") (get_or_none items "product_id")
       (get_or_none items "product_name") (get_or_none items "price")
       (get_or_none items "quantity") (get_or_none items "order_id")
       (get_or_none items "total_amount") (get_or_none items "items_count")
       (get_or_none items "payment_method")
       (get_or_none addr "city") (get_or_none addr "state")
       (get_or_none addr "zip")
       (get_or_none items "rating") (get_or_none items "review_text")
       (get_or_none items "verified_purchase")) =
  match c with
  | CShippingCity => get_or_none addr "city"
  | CShippingState => get_or_none addr "state"
  | CShippingZip => get_or_none addr "zip"
  | _ => get_or_none items (column_field c)
  end.
Proof. destruct c; reflexivity. Qed.

(** X16.  The row of a generated event: when [fromisoformat] reads back
    what [isoformat] writes, the row is built, its timestamp is the clock
    reading the generator took, every column other than the shipping
    ones holds what the event has under the column's key, and every
    column of a field the event's variant lacks is null. *)
Theorem generated_event_row (event : pyval) :
  fromisoformat_inverts_isoformat ->
  generated event ->
  exists v items now r,
    event = PDict items /\
    conforms v items = true /\
    assoc "timestamp" items = Some (PStr (isoformat now)) /\
    insert_values event = Ok r /\
    timestamp r = now /\
    event_id r = get_or_none items "event_id" /\
    event_type r = PStr (variant_name v) /\
    user_id r = get_or_none items "user_id" /\
    (forall c, column_field c <> "shipping_address" ->
               column_value c r = get_or_none items (column_field c)) /\
    (forall c, ~ In (column_field c) (variant_fields v) ->
               column_value c r = PNone).
Proof.
  intros Hinv G.
  assert (H : exists v items now addr,
             event = PDict items /\ conforms v items = true /\
             valid_datetime now = true /\
             assoc "timestamp" items = Some (PStr (isoformat now)) /\
             match assoc "shipping_address" items with
             | Some x => x
             | None => PDict []
             end = PDict addr /\
             (v <> Purchase -> addr = []) /\
             get_or_none items "event_type" = PStr (variant_name v)).
  { destruct G as [? ? ? now ? ? ? ? V|? ? ? now ? ? ? ? V
                  |? ? ? ? ? now ? ? ? ? V|? ? ? now ? ? ? V].
    - exists PageView. eexists. exists now, [].
      split; [reflexivity|]. conjs; auto; reflexivity.
    - exists AddToCart. eexists. exists now, [].
      split; [reflexivity|]. conjs; auto; reflexivity.
    - exists Purchase. eexists.
      exists now, [("city", PStr city); ("state", PStr state); ("zip", PStr zip)].
      split; [reflexivity|]. conjs; auto; try reflexivity.
      intros H. now contradiction H.
    - exists ProductReview. eexists. exists now, [].
      split; [reflexivity|]. conjs; auto; reflexivity. }
  destruct H as (v & items & now & addr & -> & Hc & V & Hts & Hship & Hother & Hty).
  exists v, items, now. eexists.
  split; [reflexivity|]. split; [exact Hc|]. split; [exact Hts|].
  split; [exact (insert_values_dict items _ now addr Hts (Hinv now V) Hship)|].
  conjs; try reflexivity.
  - exact Hty.
  - intros c Hne. rewrite row_columns. destruct c; try reflexivity;
      now contradiction Hne.
  - intros c Hc'. rewrite row_columns.
    assert (Hnone : get_or_none items (column_field c) = PNone).
    { unfold get_or_none.
      now rewrite (conforms_keys v items _ Hc (column_field_not_common c) Hc'). }
    destruct c; try exact Hnone;
      (assert (Hv : v <> Purchase) by (intros ->; apply Hc'; cbn; tauto));
      rewrite (Hother Hv); reflexivity.
Qed.

End GeneratedEvents.

(** ** From the generator to the table *)



Section SaveThenLoad.
Context {rt : Runtime}.





End SaveThenLoad.

(** ** Instances of the further properties *)

(** X1 at [a.json] of [two_files]. *)
Lemma success_count_is_rows_committed_witness :
  exists success_count error_count w' rows,
    @load_json_file lenient "data/events/a.json" 0 (connected two_files) =
    (Ok (success_count, error_count), w') /\
    w_table w' =
      w_table (connected two_files) ++ pending_of 0 (connected two_files) ++
      rows /\
    List.length rows = success_count /\
    pending_of 0 w' = [].
Proof.
  exact (@success_count_is_rows_committed lenient "data/events/a.json" 0
           (connected two_files) (PList [view1; no_timestamp])
           [view1; no_timestamp] eq_refl eq_refl eq_refl).
Defined.

(** X2 at the same file. *)
Lemma error_count_is_error_lines_printed_witness :
  exists success_count error_count w' o,
    @load_json_file lenient "data/events/a.json" 0 (connected two_files) =
    (Ok (success_count, error_count), w') /\
    w_out w' =
      w_out (connected two_files) ++
      MsgLoading "data/events/a.json" :: MsgFound 2 :: o ++
        MsgComplete success_count ::
        (if 0 <? error_count then [MsgWarning error_count] else []) /\
    forallb is_record_msg o = true /\
    List.length (filter is_insert_error o) = error_count.
Proof.
  exact (@error_count_is_error_lines_printed lenient "data/events/a.json" 0
           (connected two_files) (PList [view1; no_timestamp])
           [view1; no_timestamp] eq_refl eq_refl eq_refl).
Defined.

(** X3 at the same file, through a closed connection. *)
Lemma closed_connection_fails_at_commit_witness :
  exists w' o,
    @load_json_file lenient "data/events/a.json" 0 closed_connection =
    (Raise (InterfaceError "closed"), w') /\
    w_trace w' = w_trace closed_connection ++ [OpRead "data/events/a.json"] /\
    w_table w' = w_table closed_connection /\
    w_out w' =
      w_out closed_connection ++
      MsgLoading "data/events/a.json" :: MsgFound 2 :: o /\
    List.length (filter is_insert_error o) = 2.
Proof.
  exact (@closed_connection_fails_at_commit lenient "data/events/a.json" 0
           closed_connection (PList [view1; no_timestamp])
           [view1; no_timestamp] eq_refl eq_refl eq_refl).
Defined.

(** X4 at the broken file of [broken_middle]. *)
Lemma unloadable_file_makes_no_database_call_witness :
  exists x w',
    @load_json_file lenient "data/events/b.json" 0 (connected broken_middle) =
    (Raise x, w') /\
    x = JSONDecodeError "data/events/b.json" /\
    w_trace w' =
      w_trace (connected broken_middle) ++ [OpRead "data/events/b.json"] /\
    w_out w' =
      w_out (connected broken_middle) ++ [MsgLoading "data/events/b.json"] /\
    w_table w' = w_table (connected broken_middle) /\
    w_conns w' = w_conns (connected broken_middle).
Proof.
  exact (@unloadable_file_makes_no_database_call lenient
           "data/events/b.json" 0 (connected broken_middle) I).
Defined.

(** X5 at a file that holds an object. *)
Lemma items_that_are_no_objects_all_fail_witness :
  exists w',
    @load_json_file lenient "data/events/object.json" 0 object_file =
    (Ok (0, 2), w') /\
    w_trace w' =
      w_trace object_file ++ [OpRead "data/events/object.json"; OpCommit 0] /\
    w_table w' = w_table object_file ++ pending_of 0 object_file.
Proof.
  refine (@items_that_are_no_objects_all_fail lenient
            "data/events/object.json" 0 object_file
            (PDict [("event_type", PStr "page_view"); ("user_id", PInt 7)])
            [PStr "event_type"; PStr "user_id"] eq_refl eq_refl eq_refl _).
  repeat constructor.
Defined.

(** X6 at a purchase whose shipping address is null. *)
Lemma shipping_address_that_is_no_object_fails_the_record_witness :
  @insert_event lenient 0 purchase_without_address (connected two_files) =
  (Raise (AttributeError "NoneType"), connected two_files).
Proof.
  exact (@shipping_address_that_is_no_object_fails_the_record lenient
           (items_of purchase_without_address) "2024-03-09T14:05:59"
           (mkDatetime 2024 3 9 14 5 59 0) PNone 0 (connected two_files)
           eq_refl eq_refl eq_refl I).
Defined.

(** X7 at [two_files]. *)
Lemma totals_printed_match_table_and_error_lines_witness :
  exists w' rows o,
    @load_all_events lenient "data/events" two_files = (Ok tt, w') /\
    w_table w' = w_table two_files ++ rows /\
    w_out w' = w_out two_files ++ o /\
    In (MsgTotalLoaded (List.length rows)) o /\
    In (MsgTotalErrors (List.length (filter is_insert_error o))) o.
Proof.
  refine (@totals_printed_match_table_and_error_lines lenient
            "data/events" two_files ["b.json"; "a.json"; "notes.txt"]
            eq_refl eq_refl _ _).
  - discriminate.
  - constructor; [reflexivity | constructor; [reflexivity | constructor]].
Defined.

(** X8 at a directory that holds notes only. *)
Lemma directory_without_batch_files_gets_a_warning_witness :
  exists w',
    @load_all_events lenient "data/events" notes_only = (Ok tt, w') /\
    w_out w' =
      w_out notes_only ++ heading ++ [MsgConnected; MsgNoFiles "data/events"] /\
    w_trace w' =
      w_trace notes_only ++ [OpConnect 0; OpListdir "data/events"; OpClose 0] /\
    w_table w' = w_table notes_only /\
    conn_is_open 0 w' = false.
Proof.
  exact (@directory_without_batch_files_gets_a_warning lenient
           "data/events" notes_only ["notes.txt"] eq_refl eq_refl eq_refl).
Defined.

(** X9 at a world with no directory. *)
Lemma missing_directory_raises_with_connection_open_witness :
  exists w',
    @load_all_events lenient "data/events" empty_world =
    (Raise (FileNotFoundError "data/events"), w') /\
    w_trace w' =
      w_trace empty_world ++ [OpConnect 0; OpListdir "data/events"] /\
    conn_is_open 0 w' = true /\
    w_table w' = w_table empty_world /\
    w_out w' = w_out empty_world ++ heading ++ [MsgConnected].
Proof.
  exact (@missing_directory_raises_with_connection_open lenient
           "data/events" empty_world eq_refl eq_refl).
Defined.


(** X15 at a generated purchase. *)
Lemma generated_events_fit_their_variant_witness :
  exists v items,
    purchase1 = PDict items /\
    conforms v items = true /\
    forallb (fun k => mem k (keys items)) (common_fields ++ variant_fields v)
      = true /\
    int_field_in items "user_id" 1000 9999 /\
    match v with
    | PageView =>
        str_field_among items "device" ["mobile"; "desktop"; "tablet"] /\
        str_field_among items "browser" ["Chrome"; "Firefox"; "Safari"; "Edge"]
    | AddToCart =>
        int_field_in items "product_id" 100 999 /\
        int_field_in items "quantity" 1 3
    | Purchase =>
        int_field_in items "items_count" 1 5 /\
        str_field_among items "payment_method"
          ["credit_card"; "paypal"; "debit_card"; "apple_pay"]
    | ProductReview =>
        int_field_in items "product_id" 100 999 /\
        int_field_in items "rating" 1 5
    end.
Proof.
  exact (@generated_events_fit_their_variant lenient purchase1
           (@gen_purchase lenient 7 (fun _ => 0.5%float) "e-2" "o-1" 4242
              sample_now 1 "Lyon" "NY" "10001" eq_refl)).
Defined.

(** X16 at a generated page view. *)
Lemma generated_event_row_witness :
  exists v items now r,
    view1 = PDict items /\
    conforms v items = true /\
    assoc "timestamp" items = Some (PStr (isoformat now)) /\
    @insert_values lenient view1 = Ok r /\
    timestamp r = now /\
    event_id r = get_or_none items "event_id" /\
    event_type r = PStr (variant_name v) /\
    user_id r = get_or_none items "user_id" /\
    (forall c, column_field c <> "shipping_address" ->
               column_value c r = get_or_none items (column_field c)) /\
    (forall c, ~ In (column_field c) (variant_fields v) ->
               column_value c r = PNone).
Proof.
  exact (@generated_event_row lenient view1 parse_iso_isoformat
           (@gen_page_view lenient "e-1" 17 "s-1" sample_now 2 "index" 0 1
              eq_refl)).
Defined.



(** C1 at a file of three records whose second has no timestamp: the
    page view before it and the purchase after it are loaded. *)
Lemma record_failures_stay_in_load_json_file_witness :
  exists s_post f_post w' o_pre o_post rows,
    @load_json_file lenient "data/events/mixed.json" 0
      bad_record_in_the_middle =
    (Ok (1 + s_post, S (0 + f_post)), w') /\
    s_post + f_post = 1 /\
    w_out w' =
      w_out bad_record_in_the_middle ++
      MsgLoading "data/events/mixed.json" :: MsgFound 3 ::
      o_pre ++ MsgInsertError 2 (KeyError "timestamp") :: o_post ++
      [MsgComplete (1 + s_post); MsgWarning (S (0 + f_post))] /\
    forallb is_record_msg o_pre = true /\
    List.length (filter is_insert_error o_pre) = 0 /\
    forallb is_record_msg o_post = true /\
    List.length (filter is_insert_error o_post) = f_post /\
    w_table w' =
      w_table bad_record_in_the_middle ++
      pending_of 0 bad_record_in_the_middle ++ rows /\
    List.length rows = 1 + s_post.
Proof.
  exact (@record_failures_stay_in_load_json_file lenient
           "data/events/mixed.json" 0 bad_record_in_the_middle
           [view1] [purchase1] no_timestamp 1 0
           (snd (@load_events lenient 0 3 [view1] 1 0 0
                   (header "data/events/mixed.json" 3
                      bad_record_in_the_middle)))
           (snd (@load_events lenient 0 3 [view1] 1 0 0
                   (header "data/events/mixed.json" 3
                      bad_record_in_the_middle)))
           (KeyError "timestamp") eq_refl eq_refl eq_refl eq_refl).
Defined.



